(** * WebShopBackend: the product catalogue service

    A shallow embedding of the three source files of the repository:

    - [ServerJs]  : src/server.js, the document-store backed Express
                    application (plain list, single-element median);
    - [Paginated] : the second Express application (paginated and sorted
                    list, two-element median on even counts);
    - [InMemory]  : the node:http application that keeps the products in a
                    module-level array.

    Modelling choices, stated once:

    - JavaScript values that the handlers inspect (the [id], [name] and
      [price] of a product, query parameters) are JSON scalars or
      [undefined]; numbers are integers ([Z]), so non-integral and
      non-finite doubles are outside the model, and strings are sequences
      of 8-bit code units.  Nested arrays and objects as field values are
      outside the model as well, and so are the fields of a posted object
      other than these three, which the handlers carry along unread.
      Integer arithmetic is exact: beyond the safe integers, where the
      code would round, [parseInt] and [toString] differ from it, and
      the statements on the number in a URL or on the key of a numeric
      id carry [isSafeInteger] or [converts_exactly].
    - The Express applications are modelled from their handlers on: a
      request is the route that Express has chosen, with its parameters.
      [Db.reaches_by_id] says for which keys a GET of /products/<key>
      is the by-id route, the routes registered before it being tried
      first.
    - The document store is the external collaborator.  It is modelled as a
      finite map from document keys to documents, with the operations the
      handlers call: reading the collection, an ordered query with offset
      and limit, point reads, writes and deletes.  A document holds the
      three fields the POST handlers write; an ordered query returns every
      document, ordered on the field and then on the key, with an absent
      value first.  Path validation of document keys and transport
      failures are not modelled.
    - The in-memory application starts from four products with
      non-integral prices; the statements below hold for every content of
      its array, so the initial content is not part of the model. *)

From Stdlib Require Import ZArith Lia Ascii String.
From Stdlib Require OrderedTypeEx.
From stdpp Require Import gmap strings list fin_maps sorting pretty.

#[local] Set Warnings "-register-all".
#[local] Open Scope string_scope.

(** ** JavaScript values and the built-ins the handlers use *)

Module JS.

Inductive prim : Type :=
  | PUndefined
  | PNull
  | PBool (b : bool)
  | PNum (n : Z)
  | PStr (s : string).

Global Instance prim_eq_dec : EqDecision prim.
Proof. solve_decision. Defined.

(** JSON trees, for response bodies. *)
Inductive json : Type :=
  | JPrim (p : prim)
  | JArr (items : list json)
  | JObj (fields : list (string * json)).

Inductive exn : Type :=
  | TypeError (msg : string)
  | StoreError (msg : string).

(** ToBoolean. *)
Definition truthy (v : prim) : bool :=
  match v with
  | PUndefined | PNull => false
  | PBool b => b
  | PNum n => negb (n =? 0)%Z
  | PStr EmptyString => false
  | PStr (String _ _) => true
  end.

(** [Number.MAX_SAFE_INTEGER] and [Number.isSafeInteger] on an integer:
    the integers that a double holds exactly, together with its
    neighbours. *)
Definition MAX_SAFE_INTEGER : Z := (2 ^ 53 - 1)%Z.
Definition isSafeInteger (n : Z) : Prop :=
  (- MAX_SAFE_INTEGER <= n <= MAX_SAFE_INTEGER)%Z.

(** The values that [toString] below converts as JavaScript does: all
    but the numbers that are not safe integers. *)
Definition converts_exactly (v : prim) : Prop :=
  match v with
  | PNum n => isSafeInteger n
  | _ => True
  end.

(** [v.toString()]: a TypeError on [undefined] and [null].  A number is
    printed as its decimal digits, which is what JavaScript prints for a
    safe integer; above that JavaScript prints the digits of the nearest
    double, and an exponent from 1e21 on, which is outside the model. *)
Definition toString (v : prim) : option string :=
  match v with
  | PUndefined | PNull => None
  | PBool true => Some "true"
  | PBool false => Some "false"
  | PNum n => Some (pretty n)
  | PStr s => Some s
  end.

(** White space of the code-unit range the model covers: TAB, LF, VT, FF,
    CR, SP and NBSP. *)
Definition is_space (c : ascii) : bool :=
  let n := nat_of_ascii c in
  (n =? 9)%nat || (n =? 10)%nat || (n =? 11)%nat || (n =? 12)%nat
  || (n =? 13)%nat || (n =? 32)%nat || (n =? 160)%nat.

Fixpoint trimStart (s : string) : string :=
  match s with
  | String c s' => if is_space c then trimStart s' else s
  | EmptyString => EmptyString
  end.

(** [trimEnd]: a character is kept when it is not white space or when
    something is kept after it. *)
Fixpoint trimEnd (s : string) : string :=
  match s with
  | EmptyString => EmptyString
  | String c s' =>
      match trimEnd s' with
      | EmptyString => if is_space c then EmptyString else String c EmptyString
      | t => String c t
      end
  end.

(** [String.prototype.trim]. *)
Definition trim (s : string) : string := trimEnd (trimStart s).

(** Value of a digit in the given radix. *)
Definition digit_value (radix : Z) (c : ascii) : option Z :=
  let n := Z.of_nat (nat_of_ascii c) in
  let d :=
    if (48 <=? n)%Z && (n <=? 57)%Z then Some (n - 48)%Z
    else if (97 <=? n)%Z && (n <=? 122)%Z then Some (n - 87)%Z
    else if (65 <=? n)%Z && (n <=? 90)%Z then Some (n - 55)%Z
    else None in
  match d with
  | Some v => if (v <? radix)%Z then Some v else None
  | None => None
  end.

(** The longest prefix of digits, read in the radix; [None] when the prefix
    is empty. *)
Fixpoint read_digits (radix : Z) (acc : option Z) (s : string) : option Z :=
  match s with
  | EmptyString => acc
  | String c s' =>
      match digit_value radix c with
      | Some d => read_digits radix (Some (default 0%Z acc * radix + d)%Z) s'
      | None => acc
      end
  end.

Definition strip_sign (s : string) : Z * string :=
  match s with
  | String "-" s' => ((-1)%Z, s')
  | String "+" s' => (1%Z, s')
  | _ => (1%Z, s)
  end.

Definition strip_hex (s : string) : Z * string :=
  match s with
  | String "0" (String "x" s') => (16%Z, s')
  | String "0" (String "X" s') => (16%Z, s')
  | _ => (10%Z, s)
  end.

(** [parseInt(s)] with no radix argument; [None] is NaN.  The value is the
    exact integer that the digits denote, which is what JavaScript
    returns when that integer is safe; a larger one is rounded to a
    double there, which is outside the model. *)
Definition parseInt_string (s : string) : option Z :=
  let '(sign, s1) := strip_sign (trimStart s) in
  let '(radix, s2) := strip_hex s1 in
  match read_digits radix None s2 with
  | Some n => Some (sign * n)%Z
  | None => None
  end.

(** [parseInt(v)]: the argument is first converted to a string. *)
Definition parseInt (v : prim) : option Z :=
  match v with
  | PUndefined => None
  | PNull => None
  | PBool _ => None
  | PNum n => Some n
  | PStr s => parseInt_string s
  end.

(** [x || d] on a number that may be NaN: NaN and 0 are falsy. *)
Definition or_default (x : option Z) (d : Z) : Z :=
  match x with
  | Some n => if (n =? 0)%Z then d else n
  | None => d
  end.

(** StringToNumber on the integer fragment: white space is trimmed, the
    empty string is 0, then a signed decimal or an unsigned hexadecimal
    literal that spans the whole string; anything else is NaN.  A string
    that JavaScript reads as a number in another notation (a fraction, an
    exponent, a binary or octal literal) is outside the model. *)
Fixpoint all_digits (radix : Z) (s : string) : bool :=
  match s with
  | EmptyString => true
  | String c s' =>
      match digit_value radix c with
      | Some _ => all_digits radix s'
      | None => false
      end
  end.

Definition stringToNumber (s : string) : option Z :=
  match trim s with
  | EmptyString => Some 0%Z
  | t =>
      match strip_hex t with
      | (16%Z, h) => if all_digits 16 h then read_digits 16 None h else None
      | _ =>
          let '(sign, d) := strip_sign t in
          if all_digits 10 d then
            match read_digits 10 None d with
            | Some n => Some (sign * n)%Z
            | None => None
            end
          else None
      end
  end.

(** ToNumber; [None] is NaN. *)
Definition toNumber (v : prim) : option Z :=
  match v with
  | PUndefined => None
  | PNull => Some 0%Z
  | PBool true => Some 1%Z
  | PBool false => Some 0%Z
  | PNum n => Some n
  | PStr s => stringToNumber s
  end.

(** [a < b]: two strings compare by code units, anything else compares as
    numbers, and a comparison with NaN is false. *)
Definition lt (a b : prim) : bool :=
  match a, b with
  | PStr s, PStr t => String.ltb s t
  | _, _ =>
      match toNumber a, toNumber b with
      | Some x, Some y => (x <? y)%Z
      | _, _ => false
      end
  end.

(** [a > b] is [b < a] with the operands evaluated left to right. *)
Definition gt (a b : prim) : bool := lt b a.

(** [a - b], [None] is NaN. *)
Definition sub (a b : prim) : option Z :=
  match toNumber a, toNumber b with
  | Some x, Some y => Some (x - y)%Z
  | _, _ => None
  end.

(** [a === n] for a number [n]. *)
Definition strict_eq_num (a : prim) (n : option Z) : bool :=
  match a, n with
  | PNum x, Some y => (x =? y)%Z
  | _, _ => false
  end.

End JS.

(** ** Products, responses and the handler monad *)

Module Http.
Import JS.

(** A product as the handlers see it: the three fields they read.  An
    absent field reads as [PUndefined]. *)
Record product : Type := Product {
  p_id : prim;
  p_name : prim;
  p_price : prim
}.

Global Instance product_eq_dec : EqDecision product.
Proof. solve_decision. Defined.

(** The object literal [{ id, name, price }]. *)
Definition product_json (p : product) : json :=
  JObj [("id", JPrim (p_id p)); ("name", JPrim (p_name p));
        ("price", JPrim (p_price p))].

(** A parsed JSON request body: a scalar, an array, or an object with the
    fields of a product. *)
Inductive parsed : Type :=
  | ParsedPrim (v : prim)
  | ParsedArray
  | ParsedObject (p : product).

(** [!body] is false for arrays and objects. *)
Definition truthy_parsed (b : parsed) : bool :=
  match b with
  | ParsedPrim v => truthy v
  | ParsedArray | ParsedObject _ => true
  end.

(** Reading [body.id], [body.name], [body.price]: a TypeError on
    [undefined] and [null], [undefined] on every other value that is not
    an object with that field. *)
Definition fields (b : parsed) : option product :=
  match b with
  | ParsedPrim PUndefined | ParsedPrim PNull => None
  | ParsedPrim _ | ParsedArray => Some (Product PUndefined PUndefined PUndefined)
  | ParsedObject p => Some p
  end.

(** [req.query]: each parameter is a string or absent. *)
Record query_params : Type := QueryParams {
  qp_pageIndex : prim;
  qp_pageSize : prim;
  qp_sortField : prim;
  qp_sort : prim
}.

Record response : Type := Response {
  status : nat;
  body : json
}.

Definition error_body (msg : string) : json :=
  JObj [("error", JPrim (PStr msg))].
Definition message_body (msg : string) : json :=
  JObj [("message", JPrim (PStr msg))].
Definition count_body (n : nat) : json :=
  JObj [("count", JPrim (PNum (Z.of_nat n)))].

(** What a request ends in: a response was sent, an exception left the
    handler, or the handler returned without ending the response. *)
Inductive outcome : Type :=
  | Sent (r : response)
  | Thrown (e : exn)
  | Pending.

Inductive result (A : Type) : Type :=
  | Ok (a : A)
  | Raise (e : exn).
Global Arguments Ok {A} a.
Global Arguments Raise {A} e.

(** Handlers run in a state-and-exception monad over the collection. *)
Definition M (S A : Type) : Type := S -> result A * S.

Section monad.
Context {S : Type}.

Definition ret {A} (a : A) : M S A := fun s => (Ok a, s).
Definition throw {A} (e : exn) : M S A := fun s => (Raise e, s).
Definition bind {A B} (m : M S A) (k : A -> M S B) : M S B :=
  fun s =>
    match m s with
    | (Ok a, s') => k a s'
    | (Raise e, s') => (Raise e, s')
    end.
Definition try_catch {A} (m : M S A) (h : exn -> M S A) : M S A :=
  fun s =>
    match m s with
    | (Ok a, s') => (Ok a, s')
    | (Raise e, s') => h e s'
    end.
Definition read : M S S := fun s => (Ok s, s).
Definition write (s' : S) : M S unit := fun _ => (Ok tt, s').

(** Lifting a built-in that may throw a TypeError. *)
Definition lift {A} (msg : string) (o : option A) : M S A :=
  match o with
  | Some a => ret a
  | None => throw (TypeError msg)
  end.

(** Running a handler that sends a response when it returns. *)
Definition run (h : M S response) (s : S) : outcome * S :=
  match h s with
  | (Ok r, s') => (Sent r, s')
  | (Raise e, s') => (Thrown e, s')
  end.

(** Running a handler that may return without a response. *)
Definition run_opt (h : M S (option response)) (s : S) : outcome * S :=
  match h s with
  | (Ok (Some r), s') => (Sent r, s')
  | (Ok None, s') => (Pending, s')
  | (Raise e, s') => (Thrown e, s')
  end.
End monad.

Declare Scope handler_scope.
Delimit Scope handler_scope with handler.
Notation "x <- m ;; k" := (bind m (fun x => k))
  (at level 100, m at next level, right associativity) : handler_scope.
Notation "m ;;; k" := (bind m (fun _ => k))
  (at level 100, right associativity) : handler_scope.

End Http.

(** ** The document store *)

Module Db.
Import JS Http.
#[local] Open Scope handler_scope.

(** Modelled from the spec: the [db] object comes from firebase.js, which
    is not among the sources.  The spec has the store hold "each Product
    as a keyed document" and provide "ordering, filtering, pagination
    primitives used directly by the service"; the "products" collection is
    a finite map from keys to documents. *)
Abbreviation store := (gmap string product).

(** A document snapshot: [doc.id] and [doc.data()]. *)
Abbreviation doc := (string * product)%type.

Inductive field : Type := Name | Price.
Inductive direction : Type := Asc | Desc.

Definition field_of (f : field) (p : product) : prim :=
  match f with
  | Name => p_name p
  | Price => p_price p
  end.

(** Modelled from the spec: the order in which the store returns the
    documents of an ordered query ("ordered by [sortField]/[sort]").
    Values of different types are ordered by type, values of one type by
    value. *)
Definition type_rank (v : prim) : nat :=
  match v with
  | PUndefined => 0
  | PNull => 1
  | PBool _ => 2
  | PNum _ => 3
  | PStr _ => 4
  end.

Definition bool_compare (a b : bool) : comparison :=
  match a, b with
  | false, true => Lt
  | true, false => Gt
  | _, _ => Eq
  end.

Definition value_compare (a b : prim) : comparison :=
  match a, b with
  | PBool x, PBool y => bool_compare x y
  | PNum x, PNum y => Z.compare x y
  | PStr x, PStr y => String.compare x y
  | _, _ => Nat.compare (type_rank a) (type_rank b)
  end.

(** Modelled from the spec: "ties broken arbitrarily but stably by the
    store"; here documents with equal field values are ordered by key. *)
Definition doc_compare (f : field) (a b : doc) : comparison :=
  match value_compare (field_of f a.2) (field_of f b.2) with
  | Eq => String.compare a.1 b.1
  | c => c
  end.

(** [precedes f d a b]: [a] may come before [b] in a result ordered by
    field [f] in direction [d]. *)
Definition precedes (f : field) (d : direction) (a b : doc) : Prop :=
  match d with
  | Asc => doc_compare f a b <> Gt
  | Desc => doc_compare f b a <> Gt
  end.

Global Instance precedes_dec f d a b : Decision (precedes f d a b).
Proof. destruct d; simpl; apply _. Defined.

(** [field_ordered f d a b]: the values of field [f] in [a] and [b] are
    in order for direction [d] (equal values included). *)
Definition field_ordered (f : field) (d : direction) (a b : doc) : Prop :=
  match d with
  | Asc => value_compare (field_of f a.2) (field_of f b.2) <> Gt
  | Desc => value_compare (field_of f b.2) (field_of f a.2) <> Gt
  end.

(** Modelled from the spec: a read of the whole collection; without an
    [orderBy] the documents come by key. *)
Definition by_key (a b : doc) : Prop := String.compare a.1 b.1 <> Gt.

Global Instance by_key_dec a b : Decision (by_key a b).
Proof. unfold by_key; apply _. Defined.

(** The documents of the collection as a plain read returns them. *)
Definition all_docs (s : store) : list doc :=
  merge_sort by_key (map_to_list s).

(** Modelled from the spec: "order all documents by [price]"; the
    documents of the collection as [orderBy(f, d)] returns them. *)
Definition ordered (f : field) (d : direction) (s : store) : list doc :=
  merge_sort (precedes f d) (map_to_list s).

(** The query builder: [collection.orderBy(f, d).offset(n).limit(m)]. *)
Record query : Type := Query {
  q_field : field;
  q_dir : direction;
  q_offset : option Z;
  q_limit : option Z
}.

Definition orderBy (f : field) (d : direction) : query :=
  Query f d None None.
Definition offset (n : Z) (q : query) : query :=
  Query (q_field q) (q_dir q) (Some n) (q_limit q).
Definition limit (n : Z) (q : query) : query :=
  Query (q_field q) (q_dir q) (q_offset q) (Some n).

(** Modelled from the spec: "skipping [offset], limited to [pageSize]".
    The spec leaves negative values to the store; here the store rejects
    a negative offset or limit. *)
Definition skip (n : option Z) (l : list doc) : option (list doc) :=
  match n with
  | None => Some l
  | Some k => if (k <? 0)%Z then None else Some (drop (Z.to_nat k) l)
  end.
Definition truncate (n : option Z) (l : list doc) : option (list doc) :=
  match n with
  | None => Some l
  | Some k => if (k <? 0)%Z then None else Some (take (Z.to_nat k) l)
  end.

(** Modelled from the spec: [query.get()], the ordered documents after
    the offset and the limit; the store is not changed. *)
Definition get (q : query) : M store (list doc) :=
  s <- read ;;
  match skip (q_offset q) (ordered (q_field q) (q_dir q) s) with
  | None => throw (StoreError "invalid offset")
  | Some l =>
      match truncate (q_limit q) l with
      | None => throw (StoreError "invalid limit")
      | Some page => ret page
      end
  end.

(** Modelled from the spec: [db.collection("products").get()], every
    document of the collection. *)
Definition collection_get : M store (list doc) :=
  s <- read ;; ret (all_docs s).

(** Modelled from the spec: [db.collection("products").doc(key).get()],
    the "point lookup by key"; [None] when the snapshot does not exist. *)
Definition doc_get (key : string) : M store (option product) :=
  s <- read ;; ret (s !! key).

(** Modelled from the spec: [doc(key).set(data)], the "create-or-replace
    by key write operation". *)
Definition doc_set (key : string) (data : product) : M store unit :=
  s <- read ;; write (<[key := data]> s).

(** Modelled from the spec: [doc(key).delete()]; deleting a key that is
    absent is a no-op. *)
Definition doc_delete (key : string) : M store unit :=
  s <- read ;; write (delete key s).

(** Modelled from the spec: [batch.commit()] of a batch of deletes, "a
    set of writes submitted to the store as one atomic unit". *)
Definition batch_commit (refs : list string) : M store unit :=
  s <- read ;; write (foldr delete s refs).

(** [{ id: doc.id, ...doc.data() }]: the spread overwrites [id] when the
    data has an [id] field. *)
Definition doc_json (d : doc) : json :=
  product_json
    (Product (match p_id d.2 with PUndefined => PStr d.1 | v => v end)
             (p_name d.2) (p_price d.2)).

(** *** Handlers that the two Express applications share verbatim *)

(** GET /products/expensivest *)
Definition getExpensivest : M store response :=
  snapshot <- get (limit 1 (orderBy Price Desc)) ;;
  match snapshot with
  | [] => ret (Response 404 (error_body "No products found"))
  | product :: _ => ret (Response 200 (doc_json product))
  end.

(** GET /products/cheapest *)
Definition getCheapest : M store response :=
  snapshot <- get (limit 1 (orderBy Price Asc)) ;;
  match snapshot with
  | [] => ret (Response 404 (error_body "No products found"))
  | product :: _ => ret (Response 200 (doc_json product))
  end.

(** GET /products/count *)
Definition getCount : M store response :=
  snapshot <- collection_get ;;
  ret (Response 200 (count_body (length snapshot))).

(** GET /products/:id *)
Definition getById (id : string) : M store response :=
  d <- doc_get id ;;
  match d with
  | None => ret (Response 404 (error_body "Product not found"))
  | Some data => ret (Response 200 (doc_json (id, data)))
  end.

(** DELETE /products/:id *)
Definition deleteById (id : string) : M store response :=
  d <- doc_get id ;;
  match d with
  | None => ret (Response 404 (error_body "Product not found"))
  | Some _ =>
      doc_delete id ;;;
      ret (Response 200 (message_body "Product deleted"))
  end.

(** DELETE /products *)
Definition deleteAll : M store response :=
  snapshot <- collection_get ;;
  batch_commit (map fst snapshot) ;;;
  ret (Response 200 (message_body "All products deleted")).

(** POST /products; the two applications differ in the error text only. *)
Definition postProduct (msg : string) (b : parsed) : M store response :=
  p <- lift "Cannot destructure the request body" (fields b) ;;
  if negb (truthy (p_id p)) || negb (truthy (p_name p)) then
    ret (Response 400 (error_body msg))
  else
    key <- lift "toString of undefined" (toString (p_id p)) ;;
    doc_set key (Product (p_id p) (p_name p) (p_price p)) ;;;
    ret (Response 201
           (product_json (Product (p_id p) (p_name p) (p_price p)))).

(** [products[i]]: [undefined] out of range. *)
Definition at_index (l : list json) (i : nat) : json :=
  default (JPrim PUndefined) (l !! i).

(** *** Which keys a GET reaches the by-id handler with

    Both applications register the routes /products/expensivest,
    /products/cheapest, /products/median and /products/count before
    /products/:id, and Express takes the first route that matches,
    comparing paths without regard to case.  A GET of /products/<key> is
    therefore served by [getById key] when [key] is one path segment, not
    empty, that is none of these four names in any casing; with one of
    the names it is served by the handler of that name instead. *)

Definition lower_char (c : ascii) : ascii :=
  let n := nat_of_ascii c in
  if (65 <=? n)%nat && (n <=? 90)%nat then ascii_of_nat (n + 32) else c.

Fixpoint lowercase (s : string) : string :=
  match s with
  | EmptyString => EmptyString
  | String c rest => String (lower_char c) (lowercase rest)
  end.

Fixpoint has_slash (s : string) : bool :=
  match s with
  | EmptyString => false
  | String c rest => Ascii.eqb c "/" || has_slash rest
  end.

Definition static_routes : list string :=
  ["expensivest"; "cheapest"; "median"; "count"].

Definition reaches_by_id (key : string) : bool :=
  negb (String.eqb key "") && negb (has_slash key)
  && negb (bool_decide (lowercase key ∈ static_routes)).

End Db.

(** ** src/server.js *)

Module ServerJs.
Import JS Http Db.
#[local] Open Scope handler_scope.

(** GET /products: every document; the handler does not read
    [req.query]. *)
Definition getProducts (_ : query_params) : M store response :=
  snapshot <- collection_get ;;
  let products := map doc_json snapshot in
  ret (Response 200 (JArr products)).

(** GET /products/median: one element also when the count is even. *)
Definition getMedian : M store response :=
  snapshot <- get (orderBy Price Asc) ;;
  let products := map doc_json snapshot in
  if (length products =? 0)%nat then
    ret (Response 404 (error_body "No products found"))
  else
    let mid := (length products / 2)%nat in
    let medianProduct :=
      if (length products mod 2 =? 1)%nat then at_index products mid
      else at_index products (mid - 1) in
    ret (Response 200 medianProduct).

Definition postProduct : parsed -> M store response :=
  Db.postProduct "id and name required".

(** The routes, in the order they are registered.  A request is taken as
    Express has routed it: [GetProductById id] stands for a GET that
    reached the /products/:id handler with [req.params.id = id], which a
    GET of /products/<id> does when [Db.reaches_by_id id]. *)
Inductive request : Type :=
  | GetProducts (q : query_params)
  | GetExpensivest
  | GetCheapest
  | GetMedian
  | GetCount
  | PostProducts (b : parsed)
  | GetProductById (id : string)
  | DeleteProductById (id : string)
  | DeleteProducts.

Definition is_get (r : request) : bool :=
  match r with
  | GetProducts _ | GetExpensivest | GetCheapest | GetMedian | GetCount
  | GetProductById _ => true
  | PostProducts _ | DeleteProductById _ | DeleteProducts => false
  end.

Definition handler (r : request) : M store response :=
  match r with
  | GetProducts q => getProducts q
  | GetExpensivest => getExpensivest
  | GetCheapest => getCheapest
  | GetMedian => getMedian
  | GetCount => getCount
  | PostProducts b => postProduct b
  | GetProductById id => getById id
  | DeleteProductById id => deleteById id
  | DeleteProducts => deleteAll
  end.

Definition handle (r : request) (s : store) : outcome * store :=
  run (handler r) s.

End ServerJs.

(** ** The paginated Express application *)

Module Paginated.
Import JS Http Db.
#[local] Open Scope handler_scope.

Definition page_body (totalCount pageIndex pageSize : Z)
    (products : list json) : json :=
  JObj [("totalCount", JPrim (PNum totalCount));
        ("pageIndex", JPrim (PNum pageIndex));
        ("pageSize", JPrim (PNum pageSize));
        ("products", JArr products)].

(** GET /products *)
Definition getProducts (q : query_params) : M store response :=
  try_catch
    (let pageIndex := or_default (parseInt (qp_pageIndex q)) 1 in
     let pageSize := or_default (parseInt (qp_pageSize q)) 10 in
     let sortField :=
       if decide (qp_sortField q = PStr "price") then Price else Name in
     let sortDirection :=
       if decide (qp_sort q = PStr "desc") then Desc else Asc in
     let offset_ := ((pageIndex - 1) * pageSize)%Z in
     totalSnapshot <- collection_get ;;
     let totalCount := Z.of_nat (length totalSnapshot) in
     snapshot <-
       get (limit pageSize (offset offset_ (orderBy sortField sortDirection))) ;;
     let products := map doc_json snapshot in
     ret (Response 200 (page_body totalCount pageIndex pageSize products)))
    (fun _ => ret (Response 500 (error_body "No products found"))).

(** GET /products/median: both middle elements when the count is even. *)
Definition getMedian : M store response :=
  try_catch
    (snapshot <- get (orderBy Price Asc) ;;
     let products := map doc_json snapshot in
     if (length products =? 0)%nat then
       ret (Response 404 (error_body "No products found"))
     else
       let mid := (length products / 2)%nat in
       let medianProduct :=
         if (length products mod 2 =? 1)%nat then at_index products mid
         else JArr [at_index products (mid - 1); at_index products mid] in
       ret (Response 200 medianProduct))
    (fun _ =>
       ret (Response 500 (error_body "Could not retrieve median product"))).

Definition postProduct : parsed -> M store response :=
  Db.postProduct "id and name are required".

(** The routes, as in src/server.js: a request is taken as Express has
    routed it, and a GET of /products/<id> is [GetProductById id] when
    [Db.reaches_by_id id]. *)
Inductive request : Type :=
  | GetProducts (q : query_params)
  | GetExpensivest
  | GetCheapest
  | GetMedian
  | GetCount
  | PostProducts (b : parsed)
  | GetProductById (id : string)
  | DeleteProductById (id : string)
  | DeleteProducts.

Definition is_get (r : request) : bool :=
  match r with
  | GetProducts _ | GetExpensivest | GetCheapest | GetMedian | GetCount
  | GetProductById _ => true
  | PostProducts _ | DeleteProductById _ | DeleteProducts => false
  end.

Definition handler (r : request) : M store response :=
  match r with
  | GetProducts q => getProducts q
  | GetExpensivest => getExpensivest
  | GetCheapest => getCheapest
  | GetMedian => getMedian
  | GetCount => getCount
  | PostProducts b => postProduct b
  | GetProductById id => getById id
  | DeleteProductById id => deleteById id
  | DeleteProducts => deleteAll
  end.

Definition handle (r : request) (s : store) : outcome * store :=
  run (handler r) s.

End Paginated.

(** ** The in-memory application *)

Module InMemory.
Import JS Http.
#[local] Open Scope handler_scope.

(** The module-level [products] array. *)
Definition products : Type := list product.

(** [arr.reduce(f)] with no initial value: a TypeError on the empty
    array, otherwise a left fold seeded with the first element. *)
Definition reduce {A} (f : A -> A -> A) (l : list A) : option A :=
  match l with
  | [] => None
  | x :: rest => Some (fold_left f rest x)
  end.

(** [arr.findIndex(f)], [None] for -1. *)
Fixpoint findIndex {A} (f : A -> bool) (l : list A) : option nat :=
  match l with
  | [] => None
  | x :: rest => if f x then Some 0 else S <$> findIndex f rest
  end.

(** [arr.splice(i, 1)]: the array without its element at [i]. *)
Definition splice1 {A} (i : nat) (l : list A) : list A :=
  (take i l ++ drop (S i) l)%list.

(** [[...arr].sort(cmp)]: a stable sort of a copy; a comparator result
    that is NaN counts as 0.  When the comparator is a consistent order,
    as the difference of two numbers is, every stable sort gives this
    result; when it is not (a NaN from an id that is not a number), the
    order is left to the engine and is outside the model. *)
Fixpoint insert_sorted {A} (cmp : A -> A -> option Z) (x : A) (l : list A)
    : list A :=
  match l with
  | [] => [x]
  | y :: rest =>
      if (default 0%Z (cmp x y) <=? 0)%Z then x :: y :: rest
      else y :: insert_sorted cmp x rest
  end.
Definition sort {A} (cmp : A -> A -> option Z) (l : list A) : list A :=
  foldr (insert_sorted cmp) [] l.

(** [str.split(sep)] for a one-character separator. *)
Fixpoint split (sep : ascii) (s : string) : list string :=
  match s with
  | EmptyString => [EmptyString]
  | String c rest =>
      if Ascii.eqb c sep then EmptyString :: split sep rest
      else
        match split sep rest with
        | [] => [String c EmptyString]
        | h :: t => String c h :: t
        end
  end.

Fixpoint strip_prefix (p s : string) : option string :=
  match p, s with
  | EmptyString, _ => Some s
  | String a p', String b s' =>
      if Ascii.eqb a b then strip_prefix p' s' else None
  | String _ _, EmptyString => None
  end.

(** [url.match(/^\/products\/(\d+)$/)]: the captured digits. *)
Definition match_product_url (url : string) : option string :=
  match strip_prefix "/products/" url with
  | Some (String c rest as digits) =>
      if all_digits 10 digits then Some digits else None
  | _ => None
  end.

Record request : Type := Request {
  method : string;
  url : string;
  payload : parsed
}.

Definition sendJSON (status : nat) (data : json) : option response :=
  Some (Response status data).

(** GET /products *)
Definition getProductsHandler : M products (option response) :=
  ps <- read ;;
  ret (Some (Response 200 (JArr (map product_json ps)))).

(** GET /products/:id *)
Definition getProductByIdHandler (req : request)
    : M products (option response) :=
  ps <- read ;;
  let id := default PUndefined (PStr <$> (split "/" (url req) !! 2%nat)) in
  let product := find (fun product => strict_eq_num (p_id product) (parseInt id)) ps in
  match product with
  | Some p => ret (Some (Response 200 (product_json p)))
  | None => ret (Some (Response 404 (message_body "Product not found")))
  end.

(** GET /products/expensivest *)
Definition getExpensivestProduct : M products (option response) :=
  ps <- read ;;
  expensivestProduct <-
    lift "Reduce of empty array with no initial value"
      (reduce (fun maxProduct product =>
                 if gt (p_price product) (p_price maxProduct)
                 then product else maxProduct) ps) ;;
  if truthy_parsed (ParsedObject expensivestProduct) then
    ret (Some (Response 200 (product_json expensivestProduct)))
  else
    ret (Some (Response 404 (message_body "Product not found"))).

(** GET /products/cheapest *)
Definition getCheapestProduct : M products (option response) :=
  ps <- read ;;
  cheapestProduct <-
    lift "Reduce of empty array with no initial value"
      (reduce (fun minProduct product =>
                 if lt (p_price product) (p_price minProduct)
                 then product else minProduct) ps) ;;
  if truthy_parsed (ParsedObject cheapestProduct) then
    ret (Some (Response 200 (product_json cheapestProduct)))
  else
    ret (Some (Response 404 (message_body "Product not found"))).

Definition at_index (l : list json) (i : nat) : json :=
  default (JPrim PUndefined) (l !! i).

(** GET /products/median: the copy is sorted on [id]. *)
Definition getMedianProduct : M products (option response) :=
  ps <- read ;;
  if (length ps =? 0)%nat then ret None
  else
    let sorted :=
      map product_json (sort (fun a b => sub (p_id a) (p_id b)) ps) in
    let mid := (length sorted / 2)%nat in
    if negb (length sorted mod 2 =? 0)%nat then
      ret (Some (Response 200 (at_index sorted mid)))
    else
      ret (Some (Response 200
                   (JArr [at_index sorted (mid - 1); at_index sorted mid]))).

(** DELETE /products/:id *)
Definition deleteProductByIdHandler (req : request)
    : M products (option response) :=
  match match_product_url (url req) with
  | Some digits =>
      if String.eqb (method req) "DELETE" then
        ps <- read ;;
        let id := parseInt (PStr digits) in
        match findIndex (fun u => strict_eq_num (p_id u) id) ps with
        | None => ret (sendJSON 404 (error_body "Product not found"))
        | Some index =>
            write (splice1 index ps) ;;;
            ret (sendJSON 200
                   (message_body
                      ("Product with id: '"
                       +:+ default "NaN" (pretty <$> id) +:+ "' deleted")))
        end
      else ret (sendJSON 404 (error_body "Not Found"))
  | None => ret (sendJSON 404 (error_body "Not Found"))
  end.

(** POST /products, once the body has arrived and has been parsed. *)
Definition createProductHandler (req : request)
    : M products (option response) :=
  let newProduct := payload req in
  if negb (truthy_parsed newProduct) then
    ret (sendJSON 400 (message_body "Name is required"))
  else
    p <- lift "Cannot read properties of undefined" (fields newProduct) ;;
    match p_name p with
    | PStr name =>
        if String.eqb (trim name) "" then
          ret (sendJSON 400 (message_body "Name is required"))
        else
          ps <- read ;;
          write (ps ++ [p])%list ;;;
          ret (Some (Response 201 (product_json p)))
    | _ => throw (TypeError "newProduct.name.trim is not a function")
    end.

Definition notFoundHandler : M products (option response) :=
  ret (Some (Response 404 (message_body "Route not found"))).

(** The request listener; the logger and the content-type middleware
    touch neither the array nor the status and body of the response. *)
Definition listener (req : request) : M products (option response) :=
  let at_route (u m : string) :=
    String.eqb (url req) u && String.eqb (method req) m in
  let at_id_route (m : string) :=
    bool_decide (is_Some (match_product_url (url req)))
    && String.eqb (method req) m in
  if at_route "/products" "GET" then getProductsHandler
  else if at_id_route "GET" then getProductByIdHandler req
  else if at_route "/products" "POST" then createProductHandler req
  else if at_route "/products/count" "GET" then
    ps <- read ;; ret (sendJSON 200 (count_body (length ps)))
  else if at_route "/products/expensivest" "GET" then getExpensivestProduct
  else if at_route "/products/cheapest" "GET" then getCheapestProduct
  else if at_route "/products/median" "GET" then getMedianProduct
  else if at_route "/products" "DELETE" then
    write [] ;;; ret (sendJSON 200 (message_body "All products deleted"))
  else if at_id_route "DELETE" then deleteProductByIdHandler req
  else notFoundHandler.

Definition handle (req : request) (ps : products) : outcome * products :=
  run_opt (listener req) ps.

End InMemory.

(** * Properties *)

(** ** Statements shared by several handlers *)

Module Spec.
Import JS Http Db.

(** A store-backed aggregate handler answers 404 with the error payload
    exactly on the empty collection, and 200 otherwise. *)
Definition not_found_iff_empty (h : store -> outcome * store) : Prop :=
  forall s : store,
    (s = ∅ ->
     h s = (Sent (Response 404 (error_body "No products found")), s))
    /\ (s <> ∅ -> exists body, h s = (Sent (Response 200 body), s)).

(** Two products with numeric ids, the first id not above the second. *)
Definition id_le (a b : product) : Prop :=
  exists x y, p_id a = PNum x /\ p_id b = PNum y /\ (x <= y)%Z.

(** Every document sits under the key that its [id] converts to, and its
    [id] and [name] are truthy. *)
Definition keyed_by_id (s : store) : Prop :=
  forall k d, s !! k = Some d ->
    toString (p_id d) = Some k
    /\ truthy (p_id d) = true /\ truthy (p_name d) = true.

(** A product whose name is a string that is not blank. *)
Definition named (p : product) : Prop :=
  exists n, p_name p = PStr n /\ trim n <> "".

(** A product whose price is a number, and that number. *)
Definition has_number_price (p : product) : Prop :=
  exists x, p_price p = PNum x.
Definition price_number (p : product) : Z :=
  match p_price p with
  | PNum x => x
  | _ => 0%Z
  end.

(** What one request can do to the store: nothing, one accepted write,
    one delete, or the removal of everything. *)
Inductive store_step (s : store) : store -> Prop :=
  | step_keep : store_step s s
  | step_write p key :
      truthy (p_id p) = true -> truthy (p_name p) = true ->
      toString (p_id p) = Some key -> store_step s (<[key := p]> s)
  | step_delete id : store_step s (delete id s)
  | step_clear : store_step s ∅.

(** The count route answers 200 with [{count: n}] and leaves the store. *)
Definition counts (h : store -> outcome * store) (t : store) (n : nat) : Prop :=
  h t = (Sent (Response 200 (count_body n)), t).

End Spec.

(** ** Sample data and evaluations *)

Module Samples.
Import JS Http.

Definition apple : product := Product (PNum 1) (PStr "Apple") (PNum 10).
Definition orange : product := Product (PNum 2) (PStr "Orange") (PNum 30).
Definition lime : product := Product (PNum 3) (PStr "Lime") (PNum 20).
Definition berry : product :=
  Product (PNum 11) (PStr "Strawberry") (PNum 40).

Definition db2 : gmap string product :=
  <["1" := apple]> (<["2" := orange]> ∅).
Definition db3 : gmap string product := <["3" := lime]> db2.
Definition db4 : gmap string product := <["11" := berry]> db3.

End Samples.

Section evaluations.
Import JS Http Samples.

Example parseInt_examples :
  parseInt (PStr " 42px") = Some 42%Z
  /\ parseInt (PStr "-0x1f") = Some (-31)%Z
  /\ parseInt (PStr "abc") = None
  /\ parseInt PUndefined = None
  /\ or_default (parseInt (PStr "0")) 10 = 10%Z
  /\ toString (PNum 17) = Some "17"
  /\ trim "  a b  " = "a b"
  /\ trim "   " = "".
Proof. vm_compute. repeat split; reflexivity. Qed.

Example median_of_three :
  fst (Paginated.handle Paginated.GetMedian db3)
  = Sent (Response 200 (product_json lime))
  /\ fst (ServerJs.handle ServerJs.GetMedian db3)
     = Sent (Response 200 (product_json lime)).
Proof. split; vm_compute; reflexivity. Qed.

Example median_of_four :
  fst (Paginated.handle Paginated.GetMedian db4)
  = Sent (Response 200 (JArr [product_json lime; product_json orange]))
  /\ fst (ServerJs.handle ServerJs.GetMedian db4)
     = Sent (Response 200 (product_json lime)).
Proof. split; vm_compute; reflexivity. Qed.

Example in_memory_routes :
  fst (InMemory.handle (InMemory.Request "GET" "/products/11" ParsedArray)
         [apple; orange; lime; berry])
  = Sent (Response 200 (product_json berry))
  /\ InMemory.handle (InMemory.Request "DELETE" "/products/2" ParsedArray)
       [apple; orange; lime; berry]
     = (Sent (Response 200
                (message_body "Product with id: '2' deleted")),
        [apple; lime; berry])
  /\ fst (InMemory.handle
            (InMemory.Request "GET" "/products/median" ParsedArray)
            [berry; orange; apple; lime])
     = Sent (Response 200 (JArr [product_json orange; product_json lime])).
Proof. repeat split; vm_compute; reflexivity. Qed.

Example page_two_of_four :
  fst (Paginated.handle
         (Paginated.GetProducts
            (QueryParams (PStr "2") (PStr "3") (PStr "price")
               (PStr "desc"))) db4)
  = Sent (Response 200
            (Paginated.page_body 4 2 3 [product_json apple])).
Proof. vm_compute; reflexivity. Qed.
End evaluations.

(** ** The store's orderings *)

Section ordering.
Import JS Http Db.

Lemma bool_compare_antisym a b :
  bool_compare b a = CompOpp (bool_compare a b).
Proof. by destruct a, b. Qed.

Lemma value_compare_antisym a b :
  value_compare b a = CompOpp (value_compare a b).
Proof.
  destruct a, b; simpl; try reflexivity.
  - apply bool_compare_antisym.
  - apply Z.compare_antisym.
  - apply String.compare_antisym.
Qed.

Lemma doc_compare_antisym f a b :
  doc_compare f b a = CompOpp (doc_compare f a b).
Proof.
  unfold doc_compare.
  rewrite (value_compare_antisym (field_of f a.2) (field_of f b.2)).
  destruct (value_compare (field_of f a.2) (field_of f b.2)); simpl;
    [apply String.compare_antisym | reflexivity | reflexivity].
Qed.

Global Instance precedes_total f d : Total (precedes f d).
Proof.
  intros a b. unfold precedes.
  pose proof (doc_compare_antisym f a b) as E.
  destruct d, (doc_compare f a b) eqn:C; rewrite E; simpl;
    first [ left; discriminate | right; discriminate ].
Qed.

Global Instance by_key_total : Total by_key.
Proof.
  intros a b. unfold by_key.
  rewrite (String.compare_antisym a.1 b.1).
  destruct (String.compare b.1 a.1); simpl;
    first [ left; discriminate | right; discriminate ].
Qed.

Lemma ordered_Permutation f d (s : store) : ordered f d s ≡ₚ map_to_list s.
Proof. apply merge_sort_Permutation. Qed.

Lemma ordered_Sorted f d (s : store) : Sorted (precedes f d) (ordered f d s).
Proof. apply (Sorted_merge_sort (precedes f d)). Qed.

Lemma ordered_length f d (s : store) : length (ordered f d s) = size s.
Proof. by rewrite ordered_Permutation, length_map_to_list. Qed.

Lemma all_docs_Permutation (s : store) : all_docs s ≡ₚ map_to_list s.
Proof. apply merge_sort_Permutation. Qed.

Lemma all_docs_length (s : store) : length (all_docs s) = size s.
Proof. by rewrite all_docs_Permutation, length_map_to_list. Qed.

Lemma ordered_nil f d (s : store) : ordered f d s = [] <-> s = ∅.
Proof.
  split.
  - intros E. apply map_size_empty_iff.
    by rewrite <- (ordered_length f d), E.
  - intros ->. apply length_zero_iff_nil.
    by rewrite ordered_length, map_size_empty.
Qed.

Lemma elem_of_all_docs (s : store) k p :
  (k, p) ∈ all_docs s <-> s !! k = Some p.
Proof. by rewrite all_docs_Permutation, elem_of_map_to_list. Qed.

(** The order of a query refines the order of the field values. *)
Lemma precedes_field_ordered f d a b :
  precedes f d a b -> field_ordered f d a b.
Proof.
  unfold precedes, field_ordered, doc_compare.
  destruct d.
  - by destruct (value_compare (field_of f a.2) (field_of f b.2)).
  - by destruct (value_compare (field_of f b.2) (field_of f a.2)).
Qed.

Lemma Sorted_field_ordered f d (l : list doc) :
  Sorted (precedes f d) l -> Sorted (field_ordered f d) l.
Proof.
  induction 1 as [|x l _ IH Hhd]; constructor; [done|].
  destruct Hhd; constructor. by apply precedes_field_ordered.
Qed.

Lemma field_ordered_numbers f a b x y :
  field_of f a.2 = PNum x -> field_of f b.2 = PNum y ->
  (field_ordered f Asc a b <-> (x <= y)%Z)
  /\ (field_ordered f Desc a b <-> (y <= x)%Z).
Proof.
  intros Ha Hb. unfold field_ordered. rewrite Ha, Hb. simpl.
  split; by rewrite Z.compare_le_iff.
Qed.

(** A contiguous part of a sorted list is sorted. *)
Lemma Sorted_drop {A} (R : relation A) n (l : list A) :
  Sorted R l -> Sorted R (drop n l).
Proof.
  revert l. induction n as [|n IH]; intros l Hl; [done|].
  destruct l as [|x l]; [done|]. simpl. apply IH.
  by inversion Hl.
Qed.

Lemma Sorted_take {A} (R : relation A) n (l : list A) :
  Sorted R l -> Sorted R (take n l).
Proof.
  revert l. induction n as [|n IH]; intros l Hl; [constructor|].
  destruct l as [|x l]; [constructor|]. simpl.
  inversion Hl as [|? ? Hs Hh]; subst. constructor; [by apply IH|].
  destruct n; [constructor|].
  destruct l; [constructor|]. simpl. constructor. by inversion Hh.
Qed.

(** Deleting every key of the collection empties it. *)
Lemma lookup_foldr_delete (s : store) (ks : list string) k :
  foldr delete s ks !! k = if decide (k ∈ ks) then None else s !! k.
Proof.
  induction ks as [|k' ks IH]; cbn [foldr].
  - case_decide; [set_solver | done].
  - destruct (decide (k = k')) as [->|Hne].
    + clear IH. rewrite lookup_delete_eq. case_decide; [done | set_solver].
    + rewrite lookup_delete_ne by done. rewrite IH. clear IH.
      destruct (decide (k ∈ ks)) as [Hin|Hin];
        destruct (decide (k ∈ k' :: ks)) as [Hin'|Hin'];
        rewrite elem_of_cons in Hin'.
      * reflexivity.
      * exfalso. apply Hin'. by right.
      * by destruct Hin'.
      * reflexivity.
Qed.

Lemma delete_all_docs (s : store) :
  foldr delete s (map fst (all_docs s)) = ∅.
Proof.
  apply map_eq. intros k. rewrite lookup_foldr_delete, lookup_empty.
  case_decide as Hin; [done|].
  destruct (s !! k) as [p|] eqn:E; [|done].
  exfalso. apply Hin. apply list_elem_of_fmap.
  exists (k, p). split; [done|]. by apply elem_of_all_docs.
Qed.
End ordering.

(** ** Running handlers *)

Ltac run_handler :=
  unfold Http.run, Http.run_opt, Http.bind, Http.ret, Http.throw,
    Http.try_catch, Http.read, Http.write, Http.lift in *.

Section running.
Import JS Http Db.

Lemma lookup_map {A B} (f : A -> B) (l : list A) i :
  map f l !! i = f <$> l !! i.
Proof.
  revert i. induction l as [|x l IH]; intros [|i]; simpl; auto.
Qed.

Lemma at_index_map {A} (f : A -> json) (l : list A) i x :
  l !! i = Some x -> at_index (map f l) i = f x.
Proof. intros E. unfold at_index. by rewrite lookup_map, E. Qed.

(** An ordered query without offset and limit returns the whole ordered
    collection and leaves the store alone. *)
Lemma get_orderBy f d (s : store) :
  get (orderBy f d) s = (Ok (ordered f d s), s).
Proof. reflexivity. Qed.

Lemma get_limit_1 f d (s : store) :
  get (limit 1 (orderBy f d)) s = (Ok (take 1 (ordered f d s)), s).
Proof. reflexivity. Qed.

Lemma collection_get_run (s : store) :
  collection_get s = (Ok (all_docs s), s).
Proof. reflexivity. Qed.

Lemma half_lt n : 0 < n -> n / 2 < n.
Proof. intros. apply Nat.div_lt; lia. Qed.

Lemma mod2_cases n : n mod 2 = 0 \/ n mod 2 = 1.
Proof. pose proof (Nat.mod_upper_bound n 2). lia. Qed.

Lemma even_half_pos n : n mod 2 = 0 -> 0 < n -> 0 < n / 2.
Proof.
  intros E Hn. pose proof (Nat.div_mod_eq n 2). lia.
Qed.
End running.

(** ** The in-memory sort *)

Section in_memory_sort.
Import JS Http InMemory.
Context {A : Type} (cmp : A -> A -> option Z).

Lemma insert_sorted_Permutation x (l : list A) :
  insert_sorted cmp x l ≡ₚ x :: l.
Proof.
  induction l as [|y l IH]; simpl; [done|].
  destruct (default 0%Z (cmp x y) <=? 0)%Z; [done|].
  rewrite IH. apply Permutation_swap.
Qed.

Lemma sort_Permutation (l : list A) : sort cmp l ≡ₚ l.
Proof.
  induction l as [|x l IH]; simpl; [done|].
  unfold sort in *. simpl. by rewrite insert_sorted_Permutation, IH.
Qed.

Lemma sort_length (l : list A) : length (sort cmp l) = length l.
Proof. by rewrite sort_Permutation. Qed.
End in_memory_sort.

(** With numeric ids the copy that the median handler sorts is in
    non-decreasing order of id. *)
Lemma insert_by_id_Sorted x (l : list Http.product) :
  (exists n, Http.p_id x = JS.PNum n) ->
  Forall (fun p => exists n, Http.p_id p = JS.PNum n) l ->
  Sorted Spec.id_le l ->
  Sorted Spec.id_le
    (InMemory.insert_sorted
       (fun a b => JS.sub (Http.p_id a) (Http.p_id b)) x l).
Proof.
  intros [n Hn] Hall Hs. induction l as [|y l IH]; simpl.
  - by repeat constructor.
  - inversion Hall as [|? ? [m Hm] Hall']; subst.
    inversion Hs as [|? ? Hs' Hhd]; subst.
    rewrite Hn, Hm. simpl.
    destruct (Z.leb_spec (n - m) 0).
    + constructor; [done|]. constructor. exists n, m. repeat split; auto; lia.
    + constructor; [by apply IH|].
      destruct l as [|z l]; simpl.
      * constructor. exists m, n. repeat split; auto; lia.
      * inversion Hall' as [|? ? [k Hk] _]; subst.
        rewrite Hn, Hk. simpl.
        destruct (Z.leb_spec (n - k) 0); constructor.
        -- exists m, n. repeat split; auto; lia.
        -- by inversion Hhd.
Qed.

Lemma sort_by_id_Sorted (ps : list Http.product) :
  Forall (fun p => exists n, Http.p_id p = JS.PNum n) ps ->
  Sorted Spec.id_le
    (InMemory.sort (fun a b => JS.sub (Http.p_id a) (Http.p_id b)) ps).
Proof.
  induction 1 as [|x l Hx Hl IH]; [constructor|].
  unfold InMemory.sort in *. simpl. apply insert_by_id_Sorted; [done| |done].
  fold (InMemory.sort (fun a b => JS.sub (Http.p_id a) (Http.p_id b)) l).
  by rewrite sort_Permutation.
Qed.

(** ** Median *)

Section median.
Import JS Http Db Samples.

Lemma paginated_median_run (s : store) :
  let l := ordered Price Asc s in
  let n := length l in
  Paginated.handle Paginated.GetMedian s =
  (Sent (if (n =? 0)%nat then Response 404 (error_body "No products found")
         else Response 200
                (if (n mod 2 =? 1)%nat
                 then at_index (map doc_json l) (n / 2)
                 else JArr [at_index (map doc_json l) (n / 2 - 1);
                            at_index (map doc_json l) (n / 2)])), s).
Proof.
  intros l n. unfold Paginated.handle, Paginated.handler, Paginated.getMedian.
  run_handler. rewrite get_orderBy, length_map. fold l n.
  by destruct (n =? 0)%nat.
Qed.

Lemma serverjs_median_run (s : store) :
  let l := ordered Price Asc s in
  let n := length l in
  ServerJs.handle ServerJs.GetMedian s =
  (Sent (if (n =? 0)%nat then Response 404 (error_body "No products found")
         else Response 200
                (if (n mod 2 =? 1)%nat
                 then at_index (map doc_json l) (n / 2)
                 else at_index (map doc_json l) (n / 2 - 1))), s).
Proof.
  intros l n. unfold ServerJs.handle, ServerJs.handler, ServerJs.getMedian.
  run_handler. rewrite get_orderBy, length_map. fold l n.
  by destruct (n =? 0)%nat.
Qed.

Lemma listener_median b :
  InMemory.listener (InMemory.Request "GET" "/products/median" b)
  = InMemory.getMedianProduct.
Proof. reflexivity. Qed.

Lemma in_memory_median_run b (ps : InMemory.products) :
  let l := InMemory.sort (fun a b => sub (p_id a) (p_id b)) ps in
  let n := length l in
  InMemory.handle (InMemory.Request "GET" "/products/median" b) ps =
  (if (n =? 0)%nat then Pending
   else Sent (Response 200
                (if (n mod 2 =? 1)%nat
                 then InMemory.at_index (map product_json l) (n / 2)
                 else JArr [InMemory.at_index (map product_json l) (n / 2 - 1);
                            InMemory.at_index (map product_json l) (n / 2)])),
   ps).
Proof.
  intros l n. unfold InMemory.handle. rewrite listener_median.
  unfold InMemory.getMedianProduct. run_handler.
  rewrite length_map. fold l. fold n.
  assert (length ps = n) as -> by (symmetry; apply sort_length).
  destruct (n =? 0)%nat eqn:E0; [done|].
  destruct (mod2_cases n) as [E|E]; rewrite E; reflexivity.
Qed.
End median.

Section median_claims.
Import JS Http Db Samples.

(** C1 (as amended).  The median handlers of the two Express applications
    fetch the collection ordered by price ascending.  For an odd count
    [n] both respond with the element at index [n / 2] of that ordering.
    For an even, non-zero count the paginated application responds with
    the two-element array of the elements at [n / 2 - 1] and [n / 2],
    while src/server.js responds with the single element at [n / 2 - 1].
    The in-memory handler, on an array whose ids are all numbers, picks
    the positions of the paginated application from a copy of its array
    that is in non-decreasing order of [id]. *)
Theorem median_responses (s : store) (ps : InMemory.products) (b : parsed) :
  let l := ordered Price Asc s in
  let n := length l in
  let sorted := InMemory.sort (fun a b => sub (p_id a) (p_id b)) ps in
  let m := length sorted in
  let median := InMemory.Request "GET" "/products/median" b in
  (Sorted (precedes Price Asc) l /\ Sorted (field_ordered Price Asc) l
   /\ l ≡ₚ map_to_list s /\ n = size s)
  /\ (n mod 2 = 1 ->
      exists x, l !! (n / 2) = Some x
        /\ Paginated.handle Paginated.GetMedian s
           = (Sent (Response 200 (doc_json x)), s)
        /\ ServerJs.handle ServerJs.GetMedian s
           = (Sent (Response 200 (doc_json x)), s))
  /\ (n mod 2 = 0 -> 0 < n ->
      exists x y, l !! (n / 2 - 1) = Some x /\ l !! (n / 2) = Some y
        /\ Paginated.handle Paginated.GetMedian s
           = (Sent (Response 200 (JArr [doc_json x; doc_json y])), s)
        /\ ServerJs.handle ServerJs.GetMedian s
           = (Sent (Response 200 (doc_json x)), s))
  /\ (Forall (fun p => exists i, p_id p = PNum i) ps ->
      (Sorted Spec.id_le sorted /\ sorted ≡ₚ ps)
      /\ (m mod 2 = 1 ->
          exists x, sorted !! (m / 2) = Some x
            /\ InMemory.handle median ps
               = (Sent (Response 200 (product_json x)), ps))
      /\ (m mod 2 = 0 -> 0 < m ->
          exists x y, sorted !! (m / 2 - 1) = Some x
            /\ sorted !! (m / 2) = Some y
            /\ InMemory.handle median ps
               = (Sent (Response 200
                          (JArr [product_json x; product_json y])), ps))).
Proof.
  intros l n sorted m median.
  split; [|split; [|split; [|intros Hnum; split; [|split]]]].
  - split; [apply ordered_Sorted|].
    split; [apply Sorted_field_ordered, ordered_Sorted|].
    split; [apply ordered_Permutation | apply ordered_length].
  - intros Hodd.
    assert (0 < n) as Hpos by (destruct n; [discriminate | lia]).
    destruct (lookup_lt_is_Some_2 l (n / 2) (half_lt n Hpos)) as [x Hx].
    exists x. split; [done|].
    rewrite paginated_median_run, serverjs_median_run. fold l n.
    rewrite Hodd. replace (n =? 0)%nat with false
      by (symmetry; apply Nat.eqb_neq; lia).
    rewrite Nat.eqb_refl. cbv iota.
    by rewrite (at_index_map doc_json l _ x Hx).
  - intros Heven Hpos.
    pose proof (even_half_pos n Heven Hpos) as Hhalf.
    pose proof (half_lt n Hpos) as Hlt.
    destruct (lookup_lt_is_Some_2 l (n / 2 - 1)) as [x Hx]; [lia|].
    destruct (lookup_lt_is_Some_2 l (n / 2) Hlt) as [y Hy].
    exists x, y. split; [done|]. split; [done|].
    rewrite paginated_median_run, serverjs_median_run. fold l n.
    rewrite Heven. replace (n =? 0)%nat with false
      by (symmetry; apply Nat.eqb_neq; lia).
    change (0 =? 1)%nat with false. cbv iota.
    rewrite (at_index_map doc_json l _ x Hx).
    by rewrite (at_index_map doc_json l _ y Hy).
  - split; [by apply sort_by_id_Sorted | apply sort_Permutation].
  - intros Hodd.
    assert (0 < m) as Hpos by (destruct m; [discriminate | lia]).
    destruct (lookup_lt_is_Some_2 sorted (m / 2) (half_lt m Hpos))
      as [x Hx].
    exists x. split; [done|].
    unfold median. rewrite in_memory_median_run. fold sorted m.
    rewrite Hodd. replace (m =? 0)%nat with false
      by (symmetry; apply Nat.eqb_neq; lia).
    rewrite Nat.eqb_refl. cbv iota.
    unfold InMemory.at_index. by rewrite lookup_map, Hx.
  - intros Heven Hpos.
    pose proof (even_half_pos m Heven Hpos) as Hhalf.
    pose proof (half_lt m Hpos) as Hlt.
    destruct (lookup_lt_is_Some_2 sorted (m / 2 - 1)) as [x Hx]; [lia|].
    destruct (lookup_lt_is_Some_2 sorted (m / 2) Hlt) as [y Hy].
    exists x, y. split; [done|]. split; [done|].
    unfold median. rewrite in_memory_median_run. fold sorted m.
    rewrite Heven. replace (m =? 0)%nat with false
      by (symmetry; apply Nat.eqb_neq; lia).
    change (0 =? 1)%nat with false. cbv iota.
    unfold InMemory.at_index. by rewrite !lookup_map, Hx, Hy.
Qed.

(** The theorem at the four-product store and at the array of the same
    four products, given out of order of id. *)
Lemma median_responses_witness :
  Paginated.handle Paginated.GetMedian db4
  = (Sent (Response 200 (JArr [product_json lime; product_json orange])),
     db4)
  /\ ServerJs.handle ServerJs.GetMedian db4
     = (Sent (Response 200 (product_json lime)), db4)
  /\ InMemory.handle (InMemory.Request "GET" "/products/median" ParsedArray)
       [berry; lime; apple; orange]
     = (Sent (Response 200 (JArr [product_json orange; product_json lime])),
        [berry; lime; apple; orange]).
Proof.
  destruct (median_responses db4 [berry; lime; apple; orange] ParsedArray)
    as (_ & _ & Heven & Hmem).
  destruct Heven as (x & y & Hx & Hy & HP & HS);
    [vm_compute; reflexivity | vm_compute; lia |].
  vm_compute in Hx, Hy.
  injection Hx as <-. injection Hy as <-.
  destruct Hmem as (_ & _ & Hpair).
  { repeat constructor; eexists; reflexivity. }
  destruct Hpair as (u & v & Hu & Hv & HM);
    [vm_compute; reflexivity | vm_compute; lia |].
  vm_compute in Hu, Hv.
  injection Hu as <-. injection Hv as <-.
  split; [exact HP | split; [exact HS | exact HM]].
Defined.

(** C1 as stated fails on src/server.js, where a collection of two
    products gets one product and not the pair, and on the in-memory
    application, where the ordering is on [id] and not on [price]. *)
Lemma median_counterexample :
  ordered Price Asc db2 = [("1", apple); ("2", orange)]
  /\ fst (ServerJs.handle ServerJs.GetMedian db2)
     = Sent (Response 200 (product_json apple))
  /\ fst (ServerJs.handle ServerJs.GetMedian db2)
     <> Sent (Response 200 (JArr [product_json apple; product_json orange]))
  /\ fst (InMemory.handle
            (InMemory.Request "GET" "/products/median" ParsedArray)
            [apple; orange; lime])
     = Sent (Response 200 (product_json orange))
  /\ p_price orange = PNum 30 /\ p_price lime = PNum 20
  /\ p_price apple = PNum 10.
Proof.
  split; [vm_compute; reflexivity|].
  split; [vm_compute; reflexivity|].
  split; [vm_compute; discriminate|].
  split; [vm_compute; reflexivity|].
  repeat split.
Qed.
End median_claims.

(** ** Listing *)

Section listing.
Import JS Http Db Samples.

Lemma get_page f d (off lim : Z) (s : store) :
  (0 <= off)%Z -> (0 <= lim)%Z ->
  get (limit lim (offset off (orderBy f d))) s
  = (Ok (take (Z.to_nat lim) (drop (Z.to_nat off) (ordered f d s))), s).
Proof.
  intros Hoff Hlim. unfold get, limit, offset, orderBy. simpl.
  run_handler. unfold skip, truncate.
  destruct (Z.ltb_spec off 0); [lia|].
  by destruct (Z.ltb_spec lim 0); [lia|].
Qed.

Lemma page_length (l : list doc) (off lim : Z) :
  (0 <= off)%Z -> (1 <= lim)%Z ->
  Z.of_nat (length (take (Z.to_nat lim) (drop (Z.to_nat off) l)))
  = if (off <? Z.of_nat (length l))%Z
    then Z.min lim (Z.of_nat (length l) - off)
    else 0%Z.
Proof.
  intros Hoff Hlim. rewrite length_take, length_drop.
  destruct (Z.ltb_spec off (Z.of_nat (length l))); lia.
Qed.

(** C2 (as amended).  In the paginated application, with [pageIndex] and
    [pageSize] parsed from the query (defaults 1 and 10), the offset is
    [(pageIndex - 1) * pageSize]; when both are at least 1 the response
    is 200 with the total count, the two parameters and the page, which
    is the ordered collection in the requested field and direction with
    [offset] documents skipped and at most [pageSize] kept; its length
    is [min pageSize (totalCount - offset)] when the offset is below the
    total count and 0 otherwise.  src/server.js takes no parameters and
    responds with the array of every document. *)
Theorem list_page (q : query_params) (s : store) :
  let pageIndex := or_default (parseInt (qp_pageIndex q)) 1 in
  let pageSize := or_default (parseInt (qp_pageSize q)) 10 in
  let sortField :=
    if decide (qp_sortField q = PStr "price")
    then Price else Name in
  let sortDirection :=
    if decide (qp_sort q = PStr "desc") then Desc else Asc in
  let offset_ := ((pageIndex - 1) * pageSize)%Z in
  let totalCount := Z.of_nat (size s) in
  ((1 <= pageIndex)%Z -> (1 <= pageSize)%Z ->
   exists page : list doc,
     page = take (Z.to_nat pageSize)
              (drop (Z.to_nat offset_) (ordered sortField sortDirection s))
     /\ Paginated.handle (Paginated.GetProducts q) s
        = (Sent (Response 200
                   (Paginated.page_body totalCount pageIndex pageSize
                      (map doc_json page))), s)
     /\ Sorted (precedes sortField sortDirection) page
     /\ Sorted (field_ordered sortField sortDirection) page
     /\ Z.of_nat (length page)
        = if (offset_ <? totalCount)%Z
          then Z.min pageSize (totalCount - offset_)
          else 0%Z)
  /\ (qp_pageIndex q = PUndefined -> pageIndex = 1%Z)
  /\ (qp_pageSize q = PUndefined -> pageSize = 10%Z)
  /\ ServerJs.handle (ServerJs.GetProducts q) s
     = (Sent (Response 200 (JArr (map doc_json (all_docs s)))), s)
  /\ length (all_docs s) = size s.
Proof.
  intros pageIndex pageSize sortField sortDirection offset_ totalCount.
  split; [|split; [|split; [|split]]].
  - intros Hi Hs.
    assert (0 <= offset_)%Z as Hoff by (unfold offset_; nia).
    eexists. split; [reflexivity|]. split; [|split; [|split]].
    + unfold Paginated.handle, Paginated.handler, Paginated.getProducts.
      fold pageIndex pageSize sortField sortDirection offset_.
      run_handler. rewrite collection_get_run.
      rewrite (get_page _ _ _ _ s Hoff) by lia.
      by rewrite all_docs_length.
    + apply Sorted_take, Sorted_drop, ordered_Sorted.
    + apply Sorted_field_ordered, Sorted_take, Sorted_drop, ordered_Sorted.
    + unfold totalCount. rewrite <- (ordered_length sortField sortDirection).
      apply page_length; lia.
  - unfold pageIndex. by intros ->.
  - unfold pageSize. by intros ->.
  - reflexivity.
  - apply all_docs_length.
Qed.

(** The theorem at page 2 of size 3, by price descending, of the
    four-product store. *)
Lemma list_page_witness :
  Paginated.handle
    (Paginated.GetProducts
       (QueryParams (PStr "2") (PStr "3") (PStr "price")
          (PStr "desc"))) db4
  = (Sent (Response 200 (Paginated.page_body 4 2 3 [product_json apple])),
     db4).
Proof.
  destruct (list_page
              (QueryParams (PStr "2") (PStr "3") (PStr "price")
                 (PStr "desc")) db4) as (Hpage & _).
  destruct Hpage as (page & -> & Hrun & _);
    [vm_compute; discriminate | vm_compute; discriminate |].
  exact Hrun.
Defined.

(** C2 as stated fails on src/server.js: asked for page 1 of size 1
    of four products it responds with a bare array of all four. *)
Lemma list_counterexample :
  let q := QueryParams (PStr "1") (PStr "1") PUndefined PUndefined in
  or_default (parseInt (qp_pageIndex q)) 1 = 1%Z
  /\ or_default (parseInt (qp_pageSize q)) 10 = 1%Z
  /\ size db4 = 4
  /\ fst (ServerJs.handle (ServerJs.GetProducts q) db4)
     = Sent (Response 200
               (JArr [product_json apple; product_json berry;
                      product_json orange; product_json lime]))
  /\ Z.min 1 (4 - (1 - 1) * 1) = 1%Z.
Proof. repeat split; vm_compute; reflexivity. Qed.
End listing.

(** ** Creating products *)

Section creating.
Import JS Http Db Samples.

Lemma truthy_toString v : truthy v = true -> is_Some (toString v).
Proof. destruct v as [| |[]| |]; simpl; try discriminate; eauto. Qed.

Lemma product_eta (p : product) :
  Product (p_id p) (p_name p) (p_price p) = p.
Proof. by destruct p. Qed.

(** A body with truthy [id] and [name] is written under [id.toString()]
    and echoed with status 201. *)
Lemma post_accepts msg b p key (s : store) :
  fields b = Some p -> truthy (p_id p) = true -> truthy (p_name p) = true ->
  toString (p_id p) = Some key ->
  run (Db.postProduct msg b) s
  = (Sent (Response 201 (product_json p)), <[key := p]> s).
Proof.
  intros Hb Hid Hname Hkey. unfold Db.postProduct, doc_set. run_handler.
  rewrite Hb. cbn. rewrite Hid, Hname. cbn. rewrite Hkey. cbn.
  by rewrite product_eta.
Qed.

(** A body with a falsy [id] or [name] is answered with 400 and the
    store is not touched. *)
Lemma post_rejects msg b p (s : store) :
  fields b = Some p ->
  truthy (p_id p) = false \/ truthy (p_name p) = false ->
  run (Db.postProduct msg b) s = (Sent (Response 400 (error_body msg)), s).
Proof.
  intros Hb Hfalsy. unfold Db.postProduct. run_handler. rewrite Hb. cbn.
  destruct Hfalsy as [-> | ->]; [done|].
  by destruct (truthy (p_id p)).
Qed.

Lemma filter_none {A} (P : A -> Prop) `{forall x, Decision (P x)}
    (l : list A) :
  (forall x, x ∈ l -> ~ P x) -> filter P l = [].
Proof.
  induction l as [|x l IH]; intros Hl; [done|].
  rewrite filter_cons_False by (apply Hl; left).
  apply IH. intros y Hy. apply Hl. by right.
Qed.

Lemma one_document_per_key (s : store) key p :
  filter (fun d : doc => d.1 = key) (all_docs (<[key := p]> s))
  = [(key, p)].
Proof.
  apply Permutation_singleton_r.
  rewrite all_docs_Permutation, <- insert_delete_eq.
  rewrite map_to_list_insert by apply lookup_delete_eq.
  rewrite filter_cons_True by done.
  apply Permutation_cons; [done|].
  apply Permutation_nil_r, filter_none.
  intros [k d] Hin%elem_of_map_to_list Hk. simpl in Hk. subst k.
  by rewrite lookup_delete_eq in Hin.
Qed.

Lemma listener_post b :
  InMemory.listener (InMemory.Request "POST" "/products" b)
  = InMemory.createProductHandler (InMemory.Request "POST" "/products" b).
Proof. reflexivity. Qed.

(** The in-memory handler appends whatever object has a name that is not
    blank. *)
Lemma create_appends p name (ps : InMemory.products) :
  p_name p = PStr name -> trim name <> "" ->
  InMemory.handle (InMemory.Request "POST" "/products" (ParsedObject p)) ps
  = (Sent (Response 201 (product_json p)), (ps ++ [p])%list).
Proof.
  intros Hname Hblank. unfold InMemory.handle. rewrite listener_post.
  unfold InMemory.createProductHandler. run_handler. simpl.
  rewrite Hname. destruct (String.eqb_spec (trim name) ""); done.
Qed.
End creating.

Section upsert.
Import JS Http Db Samples.

(** C3 (as amended).  In the two Express applications POST /products is
    an upsert keyed by [id.toString()]: a body with truthy [id] and
    [name] is answered with 201, the document under the key is the posted
    one, no other key changes, the collection lists exactly one document
    under the key, the count does not grow when the key existed, and
    posting the same body again changes nothing.  The in-memory handler
    does not look at [id]: it appends the posted object, so the array
    grows by one. *)
Theorem post_upsert (s : store) (b : parsed) (p : product) (key : string) :
  fields b = Some p ->
  truthy (p_id p) = true -> truthy (p_name p) = true ->
  toString (p_id p) = Some key ->
  let s' := <[key := p]> s in
  ServerJs.handle (ServerJs.PostProducts b) s
  = (Sent (Response 201 (product_json p)), s')
  /\ Paginated.handle (Paginated.PostProducts b) s
     = (Sent (Response 201 (product_json p)), s')
  /\ s' !! key = Some p
  /\ (forall k, k <> key -> s' !! k = s !! k)
  /\ filter (fun d : doc => d.1 = key) (all_docs s') = [(key, p)]
  /\ (is_Some (s !! key) -> size s' = size s)
  /\ snd (Paginated.handle (Paginated.PostProducts b) s') = s'
  /\ snd (ServerJs.handle (ServerJs.PostProducts b) s') = s'
  /\ (forall ps name, p_name p = PStr name -> trim name <> "" ->
      InMemory.handle
        (InMemory.Request "POST" "/products" (ParsedObject p)) ps
      = (Sent (Response 201 (product_json p)), (ps ++ [p])%list)
      /\ length (ps ++ [p])%list = S (length ps)).
Proof.
  intros Hb Hid Hname Hkey s'.
  pose proof (fun msg t => post_accepts msg b p key t Hb Hid Hname Hkey)
    as Hpost.
  split; [apply Hpost|]. split; [apply Hpost|].
  split; [apply lookup_insert_eq|].
  split; [by intros k Hk; apply lookup_insert_ne|].
  split; [apply one_document_per_key|].
  split.
  { intros [old Hold]. unfold s'.
    rewrite map_size_insert, Hold. reflexivity. }
  split.
  { unfold Paginated.handle, Paginated.handler, Paginated.postProduct.
    rewrite Hpost. unfold s'. simpl. apply insert_insert_eq. }
  split.
  { unfold ServerJs.handle, ServerJs.handler, ServerJs.postProduct.
    rewrite Hpost. unfold s'. simpl. apply insert_insert_eq. }
  intros ps name Hn Hblank. split; [by apply (create_appends p name)|].
  rewrite length_app. simpl. lia.
Qed.

(** The theorem at a second POST of product 1 with a new price. *)
Lemma post_upsert_witness :
  let apple' := Product (PNum 1) (PStr "Apple") (PNum 99) in
  Paginated.handle (Paginated.PostProducts (ParsedObject apple')) db2
  = (Sent (Response 201 (product_json apple')), <["1" := apple']> db2)
  /\ size (<["1" := apple']> db2) = size db2.
Proof.
  intros apple'.
  destruct (post_upsert db2 (ParsedObject apple') apple' "1")
    as (_ & HP & _ & _ & _ & Hsize & _);
    [reflexivity | reflexivity | reflexivity | reflexivity |].
  split; [exact HP|]. apply Hsize. vm_compute. eauto.
Defined.

(** C3 as stated fails on the in-memory application: a second POST of
    product 1 leaves two products with that id and a larger count. *)
Lemma post_counterexample :
  let apple' := Product (PNum 1) (PStr "Apple") (PNum 99) in
  InMemory.handle
    (InMemory.Request "POST" "/products" (ParsedObject apple')) [apple]
  = (Sent (Response 201 (product_json apple')), [apple; apple'])
  /\ p_id apple = p_id apple'
  /\ length [apple; apple'] = 2 /\ length [apple] = 1.
Proof. repeat split; vm_compute; reflexivity. Qed.
End upsert.

(** ** Aggregates on the empty collection *)

Section empty_collection.
Import JS Http Db Samples Spec.

Lemma first_of_ordered f d :
  forall h : M store response,
  (forall s, h s = match take 1 (ordered f d s) with
                   | [] => (Ok (Response 404 (error_body "No products found")), s)
                   | product :: _ => (Ok (Response 200 (doc_json product)), s)
                   end) ->
  not_found_iff_empty (run h).
Proof.
  intros h Hh s. unfold run. rewrite Hh. split.
  - intros ->. by replace (ordered f d ∅) with (@nil doc)
      by (symmetry; by apply ordered_nil).
  - intros Hne. destruct (ordered f d s) as [|x l] eqn:E.
    + by apply ordered_nil in E.
    + simpl. eauto.
Qed.

Lemma expensivest_not_found : not_found_iff_empty (run getExpensivest).
Proof.
  apply (first_of_ordered Price Desc). intros s.
  unfold getExpensivest. run_handler. rewrite get_limit_1.
  by destruct (take 1 (ordered Price Desc s)).
Qed.

Lemma cheapest_not_found : not_found_iff_empty (run getCheapest).
Proof.
  apply (first_of_ordered Price Asc). intros s.
  unfold getCheapest. run_handler. rewrite get_limit_1.
  by destruct (take 1 (ordered Price Asc s)).
Qed.

Lemma size_zero_empty (s : store) :
  (length (ordered Price Asc s) =? 0)%nat = bool_decide (s = ∅).
Proof.
  rewrite ordered_length.
  destruct (decide (s = ∅)) as [->|Hne].
  - by rewrite map_size_empty, bool_decide_eq_true_2.
  - rewrite bool_decide_eq_false_2 by done.
    apply Nat.eqb_neq. by rewrite map_size_empty_iff.
Qed.

Lemma paginated_median_not_found :
  not_found_iff_empty (Paginated.handle Paginated.GetMedian).
Proof.
  intros s. rewrite paginated_median_run, size_zero_empty. split.
  - intros ->. by rewrite bool_decide_eq_true_2.
  - intros Hne. rewrite bool_decide_eq_false_2 by done. eauto.
Qed.

Lemma serverjs_median_not_found :
  not_found_iff_empty (ServerJs.handle ServerJs.GetMedian).
Proof.
  intros s. rewrite serverjs_median_run, size_zero_empty. split.
  - intros ->. by rewrite bool_decide_eq_true_2.
  - intros Hne. rewrite bool_decide_eq_false_2 by done. eauto.
Qed.

(** C4.  The two Express applications answer 404 with
    [{error: "No products found"}] on the expensivest, cheapest and
    median routes exactly when the collection is empty.  The in-memory
    application does not: on the empty array the expensivest and
    cheapest handlers throw out of [reduce] and the median handler
    returns without ending the response. *)
Theorem aggregates_on_empty_collection (b : parsed) :
  (not_found_iff_empty (ServerJs.handle ServerJs.GetExpensivest)
   /\ not_found_iff_empty (ServerJs.handle ServerJs.GetCheapest)
   /\ not_found_iff_empty (ServerJs.handle ServerJs.GetMedian)
   /\ not_found_iff_empty (Paginated.handle Paginated.GetExpensivest)
   /\ not_found_iff_empty (Paginated.handle Paginated.GetCheapest)
   /\ not_found_iff_empty (Paginated.handle Paginated.GetMedian))
  /\ InMemory.handle (InMemory.Request "GET" "/products/expensivest" b) []
     = (Thrown (TypeError "Reduce of empty array with no initial value"),
        [])
  /\ InMemory.handle (InMemory.Request "GET" "/products/cheapest" b) []
     = (Thrown (TypeError "Reduce of empty array with no initial value"),
        [])
  /\ InMemory.handle (InMemory.Request "GET" "/products/median" b) []
     = (Pending, []).
Proof.
  split; [|repeat split].
  repeat split;
    first [ apply expensivest_not_found | apply cheapest_not_found
          | apply serverjs_median_not_found
          | apply paginated_median_not_found ].
Qed.
End empty_collection.

(** ** Validation of POST bodies *)

Section validation.
Import JS Http Db Samples.

Lemma create_rejects_blank p name (ps : InMemory.products) :
  p_name p = PStr name -> trim name = "" ->
  InMemory.handle (InMemory.Request "POST" "/products" (ParsedObject p)) ps
  = (Sent (Response 400 (message_body "Name is required")), ps).
Proof.
  intros Hname Hblank. unfold InMemory.handle. rewrite listener_post.
  unfold InMemory.createProductHandler. run_handler. simpl.
  by rewrite Hname, Hblank.
Qed.

Lemma create_rejects_falsy b (ps : InMemory.products) :
  truthy_parsed b = false ->
  InMemory.handle (InMemory.Request "POST" "/products" b) ps
  = (Sent (Response 400 (message_body "Name is required")), ps).
Proof.
  intros Hb. unfold InMemory.handle. rewrite listener_post.
  unfold InMemory.createProductHandler. run_handler. simpl.
  by rewrite Hb.
Qed.

(** C5 (as amended).  In the two Express applications a body whose [id]
    or [name] is falsy (absent, null, false, 0 or the empty string) is
    answered with 400 and an error payload, whatever the store holds,
    and the store is left as it was; the name is not trimmed, so a body
    with a truthy id and any non-empty name is accepted.  In the
    in-memory application a falsy body, or an object whose name is a
    string that is empty after trimming, is answered with 400 and
    [{message: "Name is required"}] and nothing is appended; the id is
    not checked, so an object with any other string as name is
    appended. *)
Theorem post_validation (b : parsed) (p : product) :
  fields b = Some p ->
  (truthy (p_id p) = false \/ truthy (p_name p) = false ->
   forall s : store,
     ServerJs.handle (ServerJs.PostProducts b) s
     = (Sent (Response 400 (error_body "id and name required")), s)
     /\ Paginated.handle (Paginated.PostProducts b) s
        = (Sent (Response 400 (error_body "id and name are required")), s))
  /\ (forall (s : store) key name,
        truthy (p_id p) = true -> toString (p_id p) = Some key ->
        p_name p = PStr name -> name <> "" ->
        ServerJs.handle (ServerJs.PostProducts b) s
        = (Sent (Response 201 (product_json p)), <[key := p]> s)
        /\ Paginated.handle (Paginated.PostProducts b) s
           = (Sent (Response 201 (product_json p)), <[key := p]> s))
  /\ (forall (ps : InMemory.products) name,
        p_name p = PStr name -> trim name = "" ->
        InMemory.handle
          (InMemory.Request "POST" "/products" (ParsedObject p)) ps
        = (Sent (Response 400 (message_body "Name is required")), ps))
  /\ (forall (ps : InMemory.products) b',
        truthy_parsed b' = false ->
        InMemory.handle (InMemory.Request "POST" "/products" b') ps
        = (Sent (Response 400 (message_body "Name is required")), ps))
  /\ (forall (ps : InMemory.products) name,
        p_name p = PStr name -> trim name <> "" ->
        InMemory.handle
          (InMemory.Request "POST" "/products" (ParsedObject p)) ps
        = (Sent (Response 201 (product_json p)), (ps ++ [p])%list)).
Proof.
  intros Hb. split; [|split; [|split; [|split]]].
  - intros Hfalsy s. split; by apply post_rejects with p.
  - intros s key name Hid Hkey Hname Hne.
    assert (truthy (p_name p) = true) as Htrue
      by (rewrite Hname; by destruct name).
    split; by apply post_accepts.
  - intros ps name. apply create_rejects_blank.
  - intros ps b'. apply create_rejects_falsy.
  - intros ps name. apply create_appends.
Qed.

(** The theorem at a body without a name. *)
Lemma post_validation_witness :
  let nameless := Product (PStr "1") PUndefined (PNum 5) in
  Paginated.handle (Paginated.PostProducts (ParsedObject nameless)) db2
  = (Sent (Response 400 (error_body "id and name are required")), db2).
Proof.
  intros nameless.
  destruct (post_validation (ParsedObject nameless) nameless)
    as (Hdb & _); [reflexivity |].
  apply Hdb. right. reflexivity.
Defined.

(** C5 as stated fails in both directions of its reading of "missing":
    the Express applications accept a name of three spaces, and the
    in-memory application accepts a body without an id. *)
Lemma post_validation_counterexample :
  let blank := Product (PStr "7") (PStr "   ") (PNum 5) in
  let no_id := Product PUndefined (PStr "Pear") (PNum 5) in
  trim "   " = ""
  /\ Paginated.handle (Paginated.PostProducts (ParsedObject blank)) ∅
     = (Sent (Response 201 (product_json blank)), {["7" := blank]})
  /\ ServerJs.handle (ServerJs.PostProducts (ParsedObject blank)) ∅
     = (Sent (Response 201 (product_json blank)), {["7" := blank]})
  /\ InMemory.handle
       (InMemory.Request "POST" "/products" (ParsedObject no_id)) []
     = (Sent (Response 201 (product_json no_id)), [no_id]).
Proof. repeat split; vm_compute; reflexivity. Qed.

(** C8.  The POST handler of the two Express applications rejects every
    body whose [id] or [name] is falsy with 400 and leaves the store as
    it was; the number 0 and the empty string are falsy.  A name that is
    not empty and consists of white space only is accepted: the product
    is written under [id.toString()] with the name as posted. *)
Theorem post_truthiness (b : parsed) (p : product) (s : store) :
  fields b = Some p ->
  (truthy (p_id p) = false \/ truthy (p_name p) = false ->
   ServerJs.handle (ServerJs.PostProducts b) s
   = (Sent (Response 400 (error_body "id and name required")), s)
   /\ Paginated.handle (Paginated.PostProducts b) s
      = (Sent (Response 400 (error_body "id and name are required")), s))
  /\ truthy (PNum 0) = false
  /\ truthy (PStr "") = false
  /\ (forall key name,
        truthy (p_id p) = true -> toString (p_id p) = Some key ->
        p_name p = PStr name -> name <> "" -> trim name = "" ->
        ServerJs.handle (ServerJs.PostProducts b) s
        = (Sent (Response 201 (product_json p)), <[key := p]> s)
        /\ Paginated.handle (Paginated.PostProducts b) s
           = (Sent (Response 201 (product_json p)), <[key := p]> s)
        /\ p_name <$> (<[key := p]> s !! key) = Some (PStr name)).
Proof.
  intros Hb. split; [|split; [done|split; [done|]]].
  - intros Hfalsy. split; by apply post_rejects with p.
  - intros key name Hid Hkey Hname Hne _.
    assert (truthy (p_name p) = true) as Htrue
      by (rewrite Hname; by destruct name).
    split; [by apply post_accepts|].
    split; [by apply post_accepts|].
    by rewrite lookup_insert_eq, <- Hname.
Qed.

(** The theorem at id 0, and at a name of three spaces. *)
Lemma post_truthiness_witness :
  let zero := Product (PNum 0) (PStr "Apple") (PNum 5) in
  let blank := Product (PStr "7") (PStr "   ") (PNum 5) in
  ServerJs.handle (ServerJs.PostProducts (ParsedObject zero)) db2
  = (Sent (Response 400 (error_body "id and name required")), db2)
  /\ Paginated.handle (Paginated.PostProducts (ParsedObject blank)) db2
     = (Sent (Response 201 (product_json blank)), <["7" := blank]> db2).
Proof.
  intros zero blank. split.
  - destruct (post_truthiness (ParsedObject zero) zero db2)
      as (Hrej & _); [reflexivity|].
    apply Hrej. left. reflexivity.
  - destruct (post_truthiness (ParsedObject blank) blank db2)
      as (_ & _ & _ & Hacc); [reflexivity|].
    apply (Hacc "7" "   "); [reflexivity | reflexivity | reflexivity
                             | discriminate | reflexivity].
Defined.
End validation.

(** ** Deleting one product *)

Section delete_one.
Import JS Http Db Samples.

Lemma strict_eq_num_spec a n :
  strict_eq_num a (Some n) = true <-> a = PNum n.
Proof.
  destruct a; simpl; try (split; [discriminate | congruence]).
  rewrite Z.eqb_eq. split; congruence.
Qed.


Lemma findIndex_first {A} (f : A -> bool) (l1 l2 : list A) x :
  Forall (fun y => f y = false) l1 -> f x = true ->
  InMemory.findIndex f (l1 ++ x :: l2) = Some (length l1).
Proof.
  induction 1 as [|y l Hy _ IH]; intros Hx; simpl; [by rewrite Hx|].
  by rewrite Hy, IH.
Qed.

Lemma splice1_middle {A} (l1 l2 : list A) x :
  InMemory.splice1 (length l1) (l1 ++ x :: l2) = (l1 ++ l2)%list.
Proof.
  unfold InMemory.splice1.
  rewrite take_app_length. f_equal.
  rewrite (cons_middle x l1 l2), (assoc_L (++)).
  apply drop_app_length'. rewrite length_app. simpl. lia.
Qed.


Lemma product_url_not_collection url digits :
  InMemory.match_product_url url = Some digits ->
  String.eqb url "/products" = false.
Proof.
  intros H. destruct (String.eqb_spec url "/products") as [->|]; [|done].
  discriminate H.
Qed.

Lemma listener_delete url digits b :
  InMemory.match_product_url url = Some digits ->
  InMemory.listener (InMemory.Request "DELETE" url b)
  = InMemory.deleteProductByIdHandler (InMemory.Request "DELETE" url b).
Proof.
  intros H. unfold InMemory.listener. cbn [InMemory.url InMemory.method].
  rewrite H, (product_url_not_collection url digits H).
  change (String.eqb "DELETE" "GET") with false.
  change (String.eqb "DELETE" "POST") with false.
  change (String.eqb "DELETE" "DELETE") with true.
  rewrite !andb_false_r. cbn [andb].
  rewrite bool_decide_eq_true_2 by eauto. reflexivity.
Qed.

Lemma in_memory_delete_run url digits b (ps : InMemory.products) :
  InMemory.match_product_url url = Some digits ->
  InMemory.handle (InMemory.Request "DELETE" url b) ps
  = match InMemory.findIndex
            (fun u => strict_eq_num (p_id u) (parseInt (PStr digits))) ps
    with
    | None => (Sent (Response 404 (error_body "Product not found")), ps)
    | Some index =>
        (Sent (Response 200
                 (message_body
                    ("Product with id: '"
                     +:+ default "NaN" (pretty <$> parseInt (PStr digits))
                     +:+ "' deleted"))),
         InMemory.splice1 index ps)
    end.
Proof.
  intros H. unfold InMemory.handle. rewrite (listener_delete url digits b H).
  unfold InMemory.deleteProductByIdHandler.
  cbn [InMemory.url InMemory.method]. rewrite H.
  change (String.eqb "DELETE" "DELETE") with true. cbv iota.
  run_handler.
  by destruct (InMemory.findIndex _ ps).
Qed.

(** The digits that the route captures always parse to a number. *)
Lemma digit_value_nonneg r c d :
  digit_value r c = Some d -> (0 <= d)%Z.
Proof.
  unfold digit_value.
  repeat match goal with
         | |- context [if ?x then _ else _] => destruct x eqn:?
         end; intros [= <-] || discriminate; lia.
Qed.

Lemma read_all_digits r s acc :
  all_digits r s = true -> (0 <= r)%Z -> (0 <= acc)%Z ->
  exists n, read_digits r (Some acc) s = Some n /\ (0 <= n)%Z.
Proof.
  revert acc. induction s as [|c s IH]; intros acc Hs Hr Hacc; simpl in *.
  - eauto.
  - destruct (digit_value r c) as [d|] eqn:Hd; [|discriminate].
    apply IH; [done | done |].
    pose proof (digit_value_nonneg r c d Hd). nia.
Qed.

Lemma decimal_digit_plain c d s :
  digit_value 10 c = Some d ->
  trimStart (String c s) = String c s
  /\ strip_sign (String c s) = (1%Z, String c s)
  /\ (c = "0"%char \/ strip_hex (String c s) = (10%Z, String c s)).
Proof.
  intros H.
  destruct c as [[] [] [] [] [] [] [] []]; vm_compute in H;
    try discriminate H; (repeat split; try reflexivity);
    first [ by left | by right ].
Qed.

Lemma strip_hex_after_zero c d s :
  digit_value 10 c = Some d ->
  strip_hex (String "0" (String c s)) = (10%Z, String "0" (String c s)).
Proof.
  intros H.
  destruct c as [[] [] [] [] [] [] [] []]; vm_compute in H;
    try discriminate H; reflexivity.
Qed.

Lemma strip_hex_digits s :
  all_digits 10 s = true -> strip_hex s = (10%Z, s).
Proof.
  destruct s as [|c s]; [done|]. simpl.
  destruct (digit_value 10 c) as [d|] eqn:Hd; [|discriminate].
  intros Hs.
  destruct (decimal_digit_plain c d s Hd) as (_ & _ & [-> | Hc]); [|done].
  destruct s as [|c2 s]; [done|]. simpl in Hs.
  destruct (digit_value 10 c2) as [d2|] eqn:Hd2; [|discriminate].
  by apply strip_hex_after_zero with d2.
Qed.

Lemma product_url_parses url digits :
  InMemory.match_product_url url = Some digits ->
  exists n, parseInt (PStr digits) = Some n /\ (0 <= n)%Z.
Proof.
  unfold InMemory.match_product_url.
  destruct (InMemory.strip_prefix _ url) as [[|c rest]|]; try discriminate.
  destruct (all_digits 10 (String c rest)) eqn:Hall; [|discriminate].
  intros [= <-]. simpl. unfold parseInt_string.
  pose proof Hall as Hall'. simpl in Hall'.
  destruct (digit_value 10 c) as [d|] eqn:Hd; [|discriminate].
  destruct (decimal_digit_plain c d rest Hd) as (-> & -> & _).
  rewrite (strip_hex_digits _ Hall). simpl. rewrite Hd.
  pose proof (digit_value_nonneg 10 c d Hd) as Hd0.
  destruct (read_all_digits 10 rest (0 * 10 + d)%Z Hall')
    as (n & -> & Hn); [lia | lia |].
  exists n. split; [f_equal; lia | done].
Qed.

End delete_one.

Section delete_one_claim.
Import JS Http Db Samples.

Lemma no_match_bool n (l : list product) :
  Forall (fun u => p_id u <> PNum n) l ->
  Forall (fun u => strict_eq_num (p_id u) (Some n) = false) l.
Proof.
  intros H. eapply Forall_impl; [exact H|]. intros u Hu. simpl.
  destruct (strict_eq_num (p_id u) (Some n)) eqn:E; [|done].
  by apply strict_eq_num_spec in E.
Qed.

Lemma db_delete_run id (s : store) :
  run (deleteById id) s
  = match s !! id with
    | None => (Sent (Response 404 (error_body "Product not found")), s)
    | Some _ =>
        (Sent (Response 200 (message_body "Product deleted")), delete id s)
    end.
Proof.
  unfold deleteById, doc_get, doc_delete. run_handler.
  by destruct (s !! id).
Qed.



End delete_one_claim.

(** ** Deleting every product *)

Section delete_all.
Import JS Http Db Samples.

Lemma db_delete_all_run (s : store) :
  run deleteAll s
  = (Sent (Response 200 (message_body "All products deleted")), ∅).
Proof.
  unfold deleteAll, batch_commit. run_handler.
  rewrite collection_get_run. by rewrite delete_all_docs.
Qed.

Lemma db_count_run (s : store) :
  run getCount s = (Sent (Response 200 (count_body (size s))), s).
Proof.
  unfold getCount. run_handler. rewrite collection_get_run.
  by rewrite all_docs_length.
Qed.

(** C7.  DELETE /products answers 200 with a confirmation message from
    every state of the collection and leaves it empty, so that the count
    route then answers [{count: 0}]; this holds for the two Express
    applications and for the in-memory one. *)
Theorem delete_all (s : store) (ps : InMemory.products) (b : parsed) :
  let confirmation :=
    Sent (Response 200 (message_body "All products deleted")) in
  let zero := Sent (Response 200 (count_body 0)) in
  ServerJs.handle ServerJs.DeleteProducts s = (confirmation, ∅)
  /\ Paginated.handle Paginated.DeleteProducts s = (confirmation, ∅)
  /\ ServerJs.handle ServerJs.GetCount
       (snd (ServerJs.handle ServerJs.DeleteProducts s)) = (zero, ∅)
  /\ Paginated.handle Paginated.GetCount
       (snd (Paginated.handle Paginated.DeleteProducts s)) = (zero, ∅)
  /\ InMemory.handle (InMemory.Request "DELETE" "/products" b) ps
     = (confirmation, [])
  /\ InMemory.handle (InMemory.Request "GET" "/products/count" b)
       (snd (InMemory.handle (InMemory.Request "DELETE" "/products" b) ps))
     = (zero, []).
Proof.
  intros confirmation zero.
  assert (run getCount (∅ : store) = (zero, ∅)) as Hcount
    by (by rewrite db_count_run, map_size_empty).
  unfold ServerJs.handle, Paginated.handle.
  cbn [ServerJs.handler Paginated.handler].
  rewrite !db_delete_all_run. cbn [snd].
  by repeat split.
Qed.
End delete_all.

(** ** The extremes in the in-memory application *)

Section in_memory_extremes.
Import JS Http Db Samples.

(** A fold that keeps one of its two arguments at each step returns an
    element of the array. *)
Lemma fold_left_choice {A} (f : A -> A -> A) (l : list A) x :
  (forall a b, f a b = a \/ f a b = b) -> fold_left f l x ∈ x :: l.
Proof.
  intros Hf. revert x. induction l as [|y l IH]; intros x; simpl.
  - left.
  - destruct (Hf x y) as [-> | ->].
    + specialize (IH x). rewrite elem_of_cons in IH.
      destruct IH as [-> | IH]; [left | right; by right].
    + right. apply IH.
Qed.

Lemma reduce_choice {A} (f : A -> A -> A) (l : list A) :
  (forall a b, f a b = a \/ f a b = b) -> l <> [] ->
  exists x, InMemory.reduce f l = Some x /\ x ∈ l.
Proof.
  intros Hf Hl. destruct l as [|x l]; [done|].
  eexists. split; [reflexivity|]. by apply fold_left_choice.
Qed.

Lemma listener_expensivest b :
  InMemory.listener (InMemory.Request "GET" "/products/expensivest" b)
  = InMemory.getExpensivestProduct.
Proof. reflexivity. Qed.

Lemma listener_cheapest b :
  InMemory.listener (InMemory.Request "GET" "/products/cheapest" b)
  = InMemory.getCheapestProduct.
Proof. reflexivity. Qed.

(** C9.  In the in-memory application the 404 branch of the expensivest
    and cheapest handlers is never taken: on a non-empty array [reduce]
    returns one of the products, which is truthy, and the answer is 200
    with that product; on the empty array [reduce] throws before the
    test is reached. *)
Theorem extremes_never_404 (ps : InMemory.products) (b : parsed) :
  let expensivest := InMemory.Request "GET" "/products/expensivest" b in
  let cheapest := InMemory.Request "GET" "/products/cheapest" b in
  let thrown :=
    Thrown (TypeError "Reduce of empty array with no initial value") in
  (ps <> [] ->
   (exists p, p ∈ ps
      /\ InMemory.handle expensivest ps
         = (Sent (Response 200 (product_json p)), ps))
   /\ (exists p, p ∈ ps
         /\ InMemory.handle cheapest ps
            = (Sent (Response 200 (product_json p)), ps)))
  /\ InMemory.handle expensivest [] = (thrown, [])
  /\ InMemory.handle cheapest [] = (thrown, [])
  /\ (forall r, fst (InMemory.handle expensivest ps) = Sent r ->
                status r = 200)
  /\ (forall r, fst (InMemory.handle cheapest ps) = Sent r ->
                status r = 200).
Proof.
  intros expensivest cheapest thrown.
  assert (forall (f : product -> product -> product),
            (forall a b, f a b = a \/ f a b = b) ->
            let h : M InMemory.products (option response) :=
              Http.bind Http.read (fun ps =>
                Http.bind
                  (Http.lift "Reduce of empty array with no initial value"
                     (InMemory.reduce f ps))
                  (fun e =>
                     if truthy_parsed (ParsedObject e)
                     then Http.ret (Some (Response 200 (product_json e)))
                     else Http.ret
                            (Some (Response 404
                                     (message_body "Product not found")))))
            in
            (ps <> [] -> exists p, p ∈ ps
               /\ run_opt h ps = (Sent (Response 200 (product_json p)), ps))
            /\ (forall r, fst (run_opt h ps) = Sent r -> status r = 200))
    as Hgen.
  { intros f Hf h. unfold h. run_handler. split.
    - intros Hne. destruct (reduce_choice f ps Hf Hne) as (p & -> & Hin).
      simpl. eauto.
    - intros r. destruct (InMemory.reduce f ps); simpl; [|done].
      by intros [= <-]. }
  assert (forall x y : product,
            (if gt (p_price y) (p_price x) then y else x) = x
            \/ (if gt (p_price y) (p_price x) then y else x) = y) as Hmax
    by (intros x y; destruct (gt _ _); auto).
  assert (forall x y : product,
            (if lt (p_price y) (p_price x) then y else x) = x
            \/ (if lt (p_price y) (p_price x) then y else x) = y) as Hmin
    by (intros x y; destruct (lt _ _); auto).
  destruct (Hgen _ Hmax) as [Hmax1 Hmax2].
  destruct (Hgen _ Hmin) as [Hmin1 Hmin2].
  split; [|split; [done|split; [done|split]]].
  - intros Hne. split; [apply Hmax1, Hne | apply Hmin1, Hne].
  - exact Hmax2.
  - exact Hmin2.
Qed.

(** The theorem at the four sample products. *)
Lemma extremes_never_404_witness :
  InMemory.handle
    (InMemory.Request "GET" "/products/expensivest" ParsedArray)
    [apple; orange; lime; berry]
  = (Sent (Response 200 (product_json berry)), [apple; orange; lime; berry])
  /\ InMemory.handle
       (InMemory.Request "GET" "/products/cheapest" ParsedArray)
       [apple; orange; lime; berry]
     = (Sent (Response 200 (product_json apple)),
        [apple; orange; lime; berry]).
Proof.
  destruct (extremes_never_404 [apple; orange; lime; berry] ParsedArray)
    as (Hne & _).
  destruct Hne as ((p & _ & Hp) & (q & _ & Hq)); [discriminate|].
  split.
  - rewrite Hp. vm_compute in Hp. destruct p.
    injection Hp as <- <- <-. reflexivity.
  - rewrite Hq. vm_compute in Hq. destruct q.
    injection Hq as <- <- <-. reflexivity.
Defined.
End in_memory_extremes.

(** ** GET requests leave the collection alone *)

Section read_only.
Import JS Http Db Samples.

(** The reads of the store API return the store they were given. *)
Lemma get_keeps q (s : store) : snd (get q s) = s.
Proof.
  unfold get. run_handler.
  destruct (skip _ _); [|done]. by destruct (truncate _ _).
Qed.

Lemma serverjs_get_keeps r (s : store) :
  ServerJs.is_get r = true -> snd (ServerJs.handle r s) = s.
Proof.
  unfold ServerJs.handle. destruct r; try discriminate; intros _; simpl.
  - reflexivity.
  - unfold getExpensivest. run_handler. rewrite get_limit_1.
    by destruct (take 1 _).
  - unfold getCheapest. run_handler. rewrite get_limit_1.
    by destruct (take 1 _).
  - fold (ServerJs.handler ServerJs.GetMedian).
    fold (ServerJs.handle ServerJs.GetMedian s).
    by rewrite serverjs_median_run.
  - reflexivity.
  - unfold getById, doc_get. run_handler. by destruct (s !! id).
Qed.

Lemma paginated_list_keeps q (s : store) :
  snd (run (Paginated.getProducts q) s) = s.
Proof.
  unfold Paginated.getProducts. run_handler. rewrite collection_get_run.
  match goal with
  | |- context [get ?x s] =>
      pose proof (get_keeps x s) as Hk; destruct (get x s) as [[l|e] s']
  end; simpl in Hk; by subst s'.
Qed.

Lemma paginated_get_keeps r (s : store) :
  Paginated.is_get r = true -> snd (Paginated.handle r s) = s.
Proof.
  unfold Paginated.handle. destruct r; try discriminate; intros _; simpl.
  - apply paginated_list_keeps.
  - unfold getExpensivest. run_handler. rewrite get_limit_1.
    by destruct (take 1 _).
  - unfold getCheapest. run_handler. rewrite get_limit_1.
    by destruct (take 1 _).
  - fold (Paginated.handler Paginated.GetMedian).
    fold (Paginated.handle Paginated.GetMedian s).
    by rewrite paginated_median_run.
  - reflexivity.
  - unfold getById, doc_get. run_handler. by destruct (s !! id).
Qed.

(** The in-memory handlers behind the GET routes. *)
Lemma in_memory_list_keeps (ps : InMemory.products) :
  snd (run_opt InMemory.getProductsHandler ps) = ps.
Proof. reflexivity. Qed.

Lemma in_memory_by_id_keeps req (ps : InMemory.products) :
  snd (run_opt (InMemory.getProductByIdHandler req) ps) = ps.
Proof.
  unfold InMemory.getProductByIdHandler. run_handler.
  by destruct (find _ ps).
Qed.

Lemma in_memory_expensivest_keeps (ps : InMemory.products) :
  snd (run_opt InMemory.getExpensivestProduct ps) = ps.
Proof.
  unfold InMemory.getExpensivestProduct. run_handler.
  by destruct (InMemory.reduce _ ps).
Qed.

Lemma in_memory_cheapest_keeps (ps : InMemory.products) :
  snd (run_opt InMemory.getCheapestProduct ps) = ps.
Proof.
  unfold InMemory.getCheapestProduct. run_handler.
  by destruct (InMemory.reduce _ ps).
Qed.

Lemma in_memory_median_keeps (ps : InMemory.products) :
  snd (run_opt InMemory.getMedianProduct ps) = ps.
Proof.
  unfold InMemory.getMedianProduct. run_handler.
  destruct (length ps =? 0)%nat; [done|].
  by destruct (negb _).
Qed.

Lemma in_memory_get_keeps req (ps : InMemory.products) :
  InMemory.method req = "GET" -> snd (InMemory.handle req ps) = ps.
Proof.
  destruct req as [m u b]. simpl. intros ->.
  unfold InMemory.handle, InMemory.listener.
  cbn [InMemory.url InMemory.method].
  change (String.eqb "GET" "GET") with true.
  change (String.eqb "GET" "POST") with false.
  change (String.eqb "GET" "DELETE") with false.
  rewrite !andb_false_r, !andb_true_r.
  destruct (String.eqb u "/products"); [apply in_memory_list_keeps|].
  destruct (bool_decide _); [apply in_memory_by_id_keeps|].
  destruct (String.eqb u "/products/count"); [reflexivity|].
  destruct (String.eqb u "/products/expensivest");
    [apply in_memory_expensivest_keeps|].
  destruct (String.eqb u "/products/cheapest");
    [apply in_memory_cheapest_keeps|].
  destruct (String.eqb u "/products/median");
    [apply in_memory_median_keeps|].
  reflexivity.
Qed.

(** C10.  Every GET route (list, get by id, count, expensivest,
    cheapest, median) of the three applications leaves the collection as
    it found it, whatever the outcome of the request. *)
Theorem get_is_read_only :
  (forall r (s : store),
     ServerJs.is_get r = true -> snd (ServerJs.handle r s) = s)
  /\ (forall r (s : store),
        Paginated.is_get r = true -> snd (Paginated.handle r s) = s)
  /\ (forall req (ps : InMemory.products),
        InMemory.method req = "GET" -> snd (InMemory.handle req ps) = ps).
Proof.
  split; [exact serverjs_get_keeps|].
  split; [exact paginated_get_keeps | exact in_memory_get_keeps].
Qed.

(** The theorem at three GET requests. *)
Lemma get_is_read_only_witness :
  snd (ServerJs.handle ServerJs.GetMedian db4) = db4
  /\ snd (Paginated.handle (Paginated.GetProductById "2") db4) = db4
  /\ snd (InMemory.handle
            (InMemory.Request "GET" "/products/expensivest" ParsedArray)
            [apple; orange])
     = [apple; orange].
Proof.
  destruct get_is_read_only as (H1 & H2 & H3).
  split; [apply H1; reflexivity|].
  split; [apply H2; reflexivity | apply H3; reflexivity].
Defined.
End read_only.


(** * Further properties of the handlers *)

(** ** The two Express applications: what a POST leaves behind *)

Section store_round_trips.
Import JS Http Db Samples Spec.

(** A POST either is accepted, and then writes the body under the key of
    its id, or leaves the store as it was. *)
Lemma post_cases msg b (s : store) :
  (exists p key,
     fields b = Some p /\ truthy (p_id p) = true
     /\ truthy (p_name p) = true /\ toString (p_id p) = Some key
     /\ run (Db.postProduct msg b) s
        = (Sent (Response 201 (product_json p)), <[key := p]> s))
  \/ ((exists e, run (Db.postProduct msg b) s = (Thrown e, s))
      /\ fields b = None)
  \/ run (Db.postProduct msg b) s = (Sent (Response 400 (error_body msg)), s).
Proof.
  destruct (fields b) as [p|] eqn:Hb.
  - destruct (truthy (p_id p)) eqn:Hid.
    + destruct (truthy (p_name p)) eqn:Hname.
      * destruct (truthy_toString _ Hid) as [key Hkey].
        left. exists p, key. repeat split; try done.
        by apply post_accepts.
      * right. right. apply post_rejects with p; auto.
    + right. right. apply post_rejects with p; auto.
  - right. left. split; [|done]. unfold Db.postProduct. run_handler.
    rewrite Hb. simpl. eauto.
Qed.

Lemma truthy_defined v : truthy v = true -> v <> PUndefined.
Proof. by intros H ->. Qed.

Lemma doc_json_posted key p :
  truthy (p_id p) = true -> doc_json (key, p) = product_json p.
Proof.
  intros H. unfold doc_json. simpl.
  destruct (p_id p) eqn:E; try discriminate H; by destruct p; simpl in *; subst.
Qed.

Lemma db_get_run id (s : store) :
  run (getById id) s
  = (Sent (match s !! id with
           | None => Response 404 (error_body "Product not found")
           | Some data => Response 200 (doc_json (id, data))
           end), s).
Proof. unfold getById, doc_get. run_handler. by destruct (s !! id). Qed.

(** X1.  In both Express applications, after an accepted POST whose id
    is a string, a boolean or a safe integer, a GET of the key
    [id.toString()] answers 200 with exactly the body that the POST
    echoed, and a GET of any other key answers as it did before.  The
    keys are those with which a GET reaches the by-id handler: the names
    of the routes registered before it are left out. *)
Theorem post_then_get (b : parsed) (p : product) (key : string) (s : store) :
  fields b = Some p ->
  truthy (p_id p) = true -> truthy (p_name p) = true ->
  toString (p_id p) = Some key ->
  converts_exactly (p_id p) ->
  let s1 := snd (ServerJs.handle (ServerJs.PostProducts b) s) in
  let s2 := snd (Paginated.handle (Paginated.PostProducts b) s) in
  fst (ServerJs.handle (ServerJs.PostProducts b) s)
  = Sent (Response 201 (product_json p))
  /\ (reaches_by_id key = true ->
      ServerJs.handle (ServerJs.GetProductById key) s1
      = (Sent (Response 200 (product_json p)), s1)
      /\ Paginated.handle (Paginated.GetProductById key) s2
         = (Sent (Response 200 (product_json p)), s2))
  /\ (forall k, k <> key -> reaches_by_id k = true ->
        fst (ServerJs.handle (ServerJs.GetProductById k) s1)
        = fst (ServerJs.handle (ServerJs.GetProductById k) s)
        /\ fst (Paginated.handle (Paginated.GetProductById k) s2)
           = fst (Paginated.handle (Paginated.GetProductById k) s)).
Proof.
  intros Hb Hid Hname Hkey _ s1 s2.
  unfold s1, s2, ServerJs.handle, Paginated.handle.
  cbn [ServerJs.handler Paginated.handler].
  unfold ServerJs.postProduct, Paginated.postProduct.
  rewrite !(post_accepts _ b p key s Hb Hid Hname Hkey). cbn [fst snd].
  rewrite !db_get_run, lookup_insert_eq, (doc_json_posted key p Hid).
  split; [done|]. split; [done|].
  intros k Hk _. rewrite !db_get_run. cbn [fst].
  by rewrite lookup_insert_ne.
Qed.

(** The theorem at a POST of the lime into the two-product store. *)
Lemma post_then_get_witness :
  Paginated.handle (Paginated.GetProductById "3")
    (snd (Paginated.handle (Paginated.PostProducts (ParsedObject lime)) db2))
  = (Sent (Response 200 (product_json lime)),
     snd (Paginated.handle (Paginated.PostProducts (ParsedObject lime)) db2))
  /\ fst (Paginated.handle (Paginated.GetProductById "1")
            (snd (Paginated.handle
                    (Paginated.PostProducts (ParsedObject lime)) db2)))
     = fst (Paginated.handle (Paginated.GetProductById "1") db2).
Proof.
  destruct (post_then_get (ParsedObject lime) lime "3" db2)
    as (_ & Hkey & Hother);
    [reflexivity | reflexivity | reflexivity | reflexivity
     | unfold converts_exactly, isSafeInteger, MAX_SAFE_INTEGER; simpl; lia |].
  split.
  - apply Hkey. reflexivity.
  - apply (Hother "1"); [discriminate | reflexivity].
Defined.

(** X2.  In both Express applications, after an accepted POST whose id
    is a string, a boolean or a safe integer, a DELETE of the key
    answers 200 and leaves the store without that key, which is the
    original store when the key was new; a second DELETE of the key then
    answers 404 and changes nothing, and so does a GET of the key when
    the key is none of the names of the routes registered before the
    by-id route. *)
Theorem post_then_delete (b : parsed) (p : product) (key : string)
    (s : store) :
  fields b = Some p ->
  truthy (p_id p) = true -> truthy (p_name p) = true ->
  toString (p_id p) = Some key ->
  converts_exactly (p_id p) ->
  let s1 := snd (Paginated.handle (Paginated.PostProducts b) s) in
  let s2 := snd (Paginated.handle (Paginated.DeleteProductById key) s1) in
  let gone := Sent (Response 404 (error_body "Product not found")) in
  Paginated.handle (Paginated.DeleteProductById key) s1
  = (Sent (Response 200 (message_body "Product deleted")), delete key s)
  /\ (s !! key = None -> s2 = s)
  /\ (reaches_by_id key = true ->
      Paginated.handle (Paginated.GetProductById key) s2 = (gone, s2))
  /\ Paginated.handle (Paginated.DeleteProductById key) s2 = (gone, s2)
  /\ ServerJs.handle (ServerJs.DeleteProductById key)
       (snd (ServerJs.handle (ServerJs.PostProducts b) s))
     = (Sent (Response 200 (message_body "Product deleted")), delete key s)
  /\ (reaches_by_id key = true ->
      ServerJs.handle (ServerJs.GetProductById key) s2 = (gone, s2))
  /\ ServerJs.handle (ServerJs.DeleteProductById key) s2 = (gone, s2).
Proof.
  intros Hb Hid Hname Hkey _ s1 s2 gone.
  assert (s1 = <[key := p]> s) as Hs1.
  { unfold s1, Paginated.handle. cbn [Paginated.handler].
    unfold Paginated.postProduct.
    by rewrite (post_accepts _ b p key s Hb Hid Hname Hkey). }
  assert (snd (ServerJs.handle (ServerJs.PostProducts b) s) = <[key := p]> s)
    as Hs1'.
  { unfold ServerJs.handle. cbn [ServerJs.handler].
    unfold ServerJs.postProduct.
    by rewrite (post_accepts _ b p key s Hb Hid Hname Hkey). }
  assert (Paginated.handle (Paginated.DeleteProductById key) s1
          = (Sent (Response 200 (message_body "Product deleted")),
             delete key s)) as Hdel.
  { unfold Paginated.handle. cbn [Paginated.handler].
    rewrite db_delete_run, Hs1, lookup_insert_eq.
    by rewrite delete_insert_eq. }
  assert (s2 = delete key s) as Hs2 by (unfold s2; by rewrite Hdel).
  split; [done|].
  split; [intros Hnone; rewrite Hs2; by apply delete_id|].
  rewrite Hs1', Hs2.
  unfold ServerJs.handle, Paginated.handle.
  cbn [ServerJs.handler Paginated.handler].
  rewrite !db_get_run, !db_delete_run, lookup_delete_eq.
  rewrite lookup_insert_eq, delete_insert_eq. done.
Qed.

(** The theorem at a POST of the lime into the two-product store. *)
Lemma post_then_delete_witness :
  snd (Paginated.handle (Paginated.DeleteProductById "3")
         (snd (Paginated.handle
                 (Paginated.PostProducts (ParsedObject lime)) db2)))
  = db2
  /\ fst (Paginated.handle (Paginated.GetProductById "3")
            (snd (Paginated.handle (Paginated.DeleteProductById "3")
                    (snd (Paginated.handle
                            (Paginated.PostProducts (ParsedObject lime))
                            db2)))))
     = Sent (Response 404 (error_body "Product not found")).
Proof.
  destruct (post_then_delete (ParsedObject lime) lime "3" db2)
    as (_ & H & Hget & _);
    [reflexivity | reflexivity | reflexivity | reflexivity
     | unfold converts_exactly, isSafeInteger, MAX_SAFE_INTEGER; simpl; lia |].
  split.
  - apply H. reflexivity.
  - rewrite Hget; reflexivity.
Defined.
End store_round_trips.

(** ** The two Express applications: invariants and counts *)

Section store_invariants.
Import JS Http Db Samples Spec.

Lemma post_step msg b (s : store) :
  store_step s (snd (run (Db.postProduct msg b) s)).
Proof.
  destruct (post_cases msg b s)
    as [(p & key & _ & Hid & Hname & Hkey & ->) | [[[e ->] _] | ->]];
    simpl; [by apply step_write | apply step_keep | apply step_keep].
Qed.

Lemma serverjs_step r (s : store) :
  store_step s (snd (ServerJs.handle r s)).
Proof.
  destruct (ServerJs.is_get r) eqn:Hget.
  - rewrite serverjs_get_keeps by done. apply step_keep.
  - unfold ServerJs.handle. destruct r; try discriminate Hget;
      cbn [ServerJs.handler].
    + apply post_step.
    + rewrite db_delete_run. destruct (s !! id); simpl;
        [apply step_delete | apply step_keep].
    + rewrite db_delete_all_run. apply step_clear.
Qed.

Lemma paginated_step r (s : store) :
  store_step s (snd (Paginated.handle r s)).
Proof.
  destruct (Paginated.is_get r) eqn:Hget.
  - rewrite paginated_get_keeps by done. apply step_keep.
  - unfold Paginated.handle. destruct r; try discriminate Hget;
      cbn [Paginated.handler].
    + apply post_step.
    + rewrite db_delete_run. destruct (s !! id); simpl;
        [apply step_delete | apply step_keep].
    + rewrite db_delete_all_run. apply step_clear.
Qed.

Lemma keyed_by_id_step (s t : store) :
  store_step s t -> keyed_by_id s -> keyed_by_id t.
Proof.
  intros Hstep Hs. destruct Hstep as [|p key Hid Hname Hkey|id|].
  - done.
  - intros k d. rewrite lookup_insert. case_decide as Hk.
    + intros [= <-]. by subst.
    + apply Hs.
  - intros k d. rewrite lookup_delete. case_decide; [done | apply Hs].
  - intros k d. by rewrite lookup_empty.
Qed.

(** X3.  In both Express applications every request keeps this invariant
    of the collection: each document is stored under the key
    [id.toString()] of its own id, and its id and name are truthy.  In
    such a collection a GET of a key that is present, and is none of
    the names of the routes registered before the by-id route, answers
    with the product as it was posted, its own [id] included. *)
Theorem keyed_by_id_kept (s : store) :
  keyed_by_id s ->
  (forall r, keyed_by_id (snd (ServerJs.handle r s)))
  /\ (forall r, keyed_by_id (snd (Paginated.handle r s)))
  /\ (forall k d, s !! k = Some d -> reaches_by_id k = true ->
        ServerJs.handle (ServerJs.GetProductById k) s
        = (Sent (Response 200 (product_json d)), s)
        /\ Paginated.handle (Paginated.GetProductById k) s
           = (Sent (Response 200 (product_json d)), s)).
Proof.
  intros Hs. split; [|split].
  - intros r. exact (keyed_by_id_step s _ (serverjs_step r s) Hs).
  - intros r. exact (keyed_by_id_step s _ (paginated_step r s) Hs).
  - intros k d Hd _. destruct (Hs k d Hd) as (_ & Hid & _).
    unfold ServerJs.handle, Paginated.handle.
    cbn [ServerJs.handler Paginated.handler].
    by rewrite db_get_run, Hd, (doc_json_posted k d Hid).
Qed.

(** The theorem at the collection of the apple: a POST of the lime, and
    a GET of the apple. *)
Lemma keyed_by_id_kept_witness :
  keyed_by_id
    (snd (Paginated.handle (Paginated.PostProducts (ParsedObject lime))
            {["1" := apple]}))
  /\ Paginated.handle (Paginated.GetProductById "1") {["1" := apple]}
     = (Sent (Response 200 (product_json apple)), {["1" := apple]}).
Proof.
  assert (keyed_by_id ({["1" := apple]} : store)) as H0.
  { intros k d H. apply lookup_singleton_Some in H as [<- <-].
    repeat split. }
  destruct (keyed_by_id_kept {["1" := apple]} H0) as (_ & H & Hget).
  split; [apply H|].
  apply (Hget "1" apple); [apply lookup_singleton_eq | reflexivity].
Defined.

(** X4.  In both Express applications the count route answers the number
    of documents; an accepted POST raises it by one when the key is new
    and leaves it when the key exists, and a DELETE of a key lowers it by
    one when the key exists and leaves it otherwise. *)
Theorem count_tracks (b : parsed) (p : product) (key id : string)
    (s : store) :
  fields b = Some p ->
  truthy (p_id p) = true -> truthy (p_name p) = true ->
  toString (p_id p) = Some key ->
  let posted1 := snd (ServerJs.handle (ServerJs.PostProducts b) s) in
  let posted2 := snd (Paginated.handle (Paginated.PostProducts b) s) in
  let deleted1 := snd (ServerJs.handle (ServerJs.DeleteProductById id) s) in
  let deleted2 :=
    snd (Paginated.handle (Paginated.DeleteProductById id) s) in
  let count1 := counts (ServerJs.handle ServerJs.GetCount) in
  let count2 := counts (Paginated.handle Paginated.GetCount) in
  (count1 s (size s) /\ count2 s (size s))
  /\ (s !! key = None ->
      count1 posted1 (S (size s)) /\ count2 posted2 (S (size s)))
  /\ (is_Some (s !! key) ->
      count1 posted1 (size s) /\ count2 posted2 (size s))
  /\ (is_Some (s !! id) ->
      count1 deleted1 (size s - 1) /\ count2 deleted2 (size s - 1)
      /\ 0 < size s)
  /\ (s !! id = None ->
      count1 deleted1 (size s) /\ count2 deleted2 (size s)).
Proof.
  intros Hb Hid Hname Hkey posted1 posted2 deleted1 deleted2 count1 count2.
  assert (forall t, count1 t (size t) /\ count2 t (size t)) as Hcount
    by (intros t; split; apply db_count_run).
  assert (posted1 = <[key := p]> s /\ posted2 = <[key := p]> s) as [-> ->].
  { unfold posted1, posted2, ServerJs.handle, Paginated.handle.
    cbn [ServerJs.handler Paginated.handler].
    unfold ServerJs.postProduct, Paginated.postProduct.
    by rewrite !(post_accepts _ b p key s Hb Hid Hname Hkey). }
  assert (deleted1 = deleted2) as <-.
  { unfold deleted1, deleted2, ServerJs.handle, Paginated.handle.
    by cbn [ServerJs.handler Paginated.handler]. }
  assert (deleted1 = match s !! id with Some _ => delete id s | None => s end)
    as Hdel.
  { unfold deleted1, ServerJs.handle. cbn [ServerJs.handler].
    rewrite db_delete_run. by destruct (s !! id). }
  split; [apply Hcount|]. split; [|split; [|split]].
  - intros Hnone. rewrite <- (map_size_insert_None key p s Hnone).
    apply Hcount.
  - intros [old Hold].
    replace (size s) with (size (<[key := p]> s)); [apply Hcount|].
    by rewrite map_size_insert, Hold.
  - intros [d Hd]. rewrite Hdel, Hd.
    assert (S (size (delete id s)) = size s) as Hsize.
    { rewrite map_size_delete, Hd.
      assert (size s <> 0)
        by (rewrite map_size_empty_iff; intros ->;
            by rewrite lookup_empty in Hd).
      lia. }
    replace (size s - 1) with (size (delete id s)) by lia.
    split; [apply Hcount|]. split; [apply Hcount | lia].
  - intros Hnone. rewrite Hdel, Hnone. apply Hcount.
Qed.

(** The theorem at a POST of the lime into the two-product store. *)
Lemma count_tracks_witness :
  counts (Paginated.handle Paginated.GetCount)
    (snd (Paginated.handle (Paginated.PostProducts (ParsedObject lime)) db2))
    3.
Proof.
  destruct (count_tracks (ParsedObject lime) lime "3" "1" db2)
    as (_ & H & _); [reflexivity | reflexivity | reflexivity
                     | reflexivity |].
  destruct H as [_ H]; [reflexivity|]. exact H.
Defined.

(** X5.  For ids that are strings, booleans or safe integers, the key of
    a document is the string form of the posted id: two accepted POSTs
    whose ids have the same string form overwrite each other, and two
    whose keys differ are both kept.  So a safe integer and the string
    of its decimal digits overwrite each other, and two different safe
    integers are both kept. *)
Theorem keys_are_id_strings (p1 p2 : product) (k1 k2 : string) (s : store) :
  truthy (p_id p1) = true -> truthy (p_name p1) = true ->
  truthy (p_id p2) = true -> truthy (p_name p2) = true ->
  toString (p_id p1) = Some k1 -> toString (p_id p2) = Some k2 ->
  converts_exactly (p_id p1) -> converts_exactly (p_id p2) ->
  let s' :=
    snd (Paginated.handle (Paginated.PostProducts (ParsedObject p2))
           (snd (Paginated.handle
                   (Paginated.PostProducts (ParsedObject p1)) s))) in
  (k1 = k2 -> s' = <[k1 := p2]> s)
  /\ (k1 <> k2 -> s' !! k1 = Some p1 /\ s' !! k2 = Some p2)
  /\ (forall n m, p_id p1 = PNum n -> p_id p2 = PNum m -> n <> m ->
        k1 <> k2 /\ s' !! k1 = Some p1 /\ s' !! k2 = Some p2)
  /\ (forall n, p_id p1 = PNum n -> p_id p2 = PStr (pretty n) ->
        k1 = k2 /\ s' = <[k1 := p2]> s).
Proof.
  intros Hid1 Hn1 Hid2 Hn2 Hk1 Hk2 _ _ s'.
  assert (s' = <[k2 := p2]> (<[k1 := p1]> s)) as ->.
  { unfold s', Paginated.handle. cbn [Paginated.handler].
    unfold Paginated.postProduct.
    rewrite (post_accepts _ (ParsedObject p1) p1 k1 s eq_refl Hid1 Hn1 Hk1).
    cbn [snd].
    by rewrite (post_accepts _ (ParsedObject p2) p2 k2 _ eq_refl Hid2 Hn2 Hk2). }
  assert (k1 <> k2 ->
          <[k2 := p2]> (<[k1 := p1]> s) !! k1 = Some p1
          /\ <[k2 := p2]> (<[k1 := p1]> s) !! k2 = Some p2) as Hkept.
  { intros Hne. split.
    - rewrite lookup_insert_ne by done. apply lookup_insert_eq.
    - apply lookup_insert_eq. }
  split; [|split; [|split]].
  - intros ->. apply insert_insert_eq.
  - exact Hkept.
  - intros n m E1 E2 Hnm. rewrite E1 in Hk1. rewrite E2 in Hk2.
    simpl in Hk1, Hk2.
    assert (k1 <> k2) as Hne
      by (intros Hk; apply Hnm, (inj pretty); congruence).
    split; [done | by apply Hkept].
  - intros n E1 E2. rewrite E1 in Hk1. rewrite E2 in Hk2.
    simpl in Hk1, Hk2.
    assert (k1 = k2) as <- by congruence.
    split; [done | apply insert_insert_eq].
Qed.

(** The theorem at the number 7 and the string "7" as ids. *)
Lemma keys_are_id_strings_witness :
  let first := Product (PNum 7) (PStr "Pear") (PNum 5) in
  let second := Product (PStr "7") (PStr "Plum") (PNum 6) in
  snd (Paginated.handle (Paginated.PostProducts (ParsedObject second))
         (snd (Paginated.handle
                 (Paginated.PostProducts (ParsedObject first)) db2)))
  = <["7" := second]> db2.
Proof.
  intros first second.
  destruct (keys_are_id_strings first second "7" "7" db2)
    as (_ & _ & _ & H);
    [reflexivity | reflexivity | reflexivity | reflexivity
     | reflexivity | reflexivity
     | unfold converts_exactly, isSafeInteger, MAX_SAFE_INTEGER; simpl; lia
     | exact I |].
  destruct (H 7%Z) as [_ Hs]; [reflexivity | reflexivity |].
  exact Hs.
Defined.
End store_invariants.

(** ** The two Express applications: the extremes are extreme *)

Section store_extremes.
Import JS Http Db Samples Spec.

Lemma string_compare_refl a : String.compare a a = Eq.
Proof. by apply OrderedTypeEx.String_as_OT.cmp_eq. Qed.

Lemma string_compare_lt_trans a b c :
  String.compare a b = Lt -> String.compare b c = Lt ->
  String.compare a c = Lt.
Proof.
  intros H1%OrderedTypeEx.String_as_OT.cmp_lt
         H2%OrderedTypeEx.String_as_OT.cmp_lt.
  apply OrderedTypeEx.String_as_OT.cmp_lt.
  by apply OrderedTypeEx.String_as_OT.lt_trans with b.
Qed.

Lemma value_compare_eq a b : value_compare a b = Eq -> a = b.
Proof.
  destruct a as [| |x|x|x], b as [| |y|y|y]; simpl; try done.
  - by destruct x, y.
  - by intros ->%Z.compare_eq.
  - by intros ->%String.compare_eq_iff.
Qed.

Lemma value_compare_refl a : value_compare a a = Eq.
Proof.
  destruct a as [| |x|x|x]; simpl; try done.
  - by destruct x.
  - apply Z.compare_refl.
  - apply string_compare_refl.
Qed.

Lemma value_compare_lt_trans a b c :
  value_compare a b = Lt -> value_compare b c = Lt ->
  value_compare a c = Lt.
Proof.
  destruct a as [| |x|x|x], b as [| |y|y|y], c as [| |z|z|z]; simpl;
    try done.
  - by destruct x, y, z.
  - rewrite !Z.compare_lt_iff. lia.
  - apply string_compare_lt_trans.
Qed.

Lemma doc_compare_lt f a b :
  doc_compare f a b = Lt <->
  value_compare (field_of f a.2) (field_of f b.2) = Lt
  \/ (field_of f a.2 = field_of f b.2 /\ String.compare a.1 b.1 = Lt).
Proof.
  unfold doc_compare.
  destruct (value_compare (field_of f a.2) (field_of f b.2)) eqn:E.
  - apply value_compare_eq in E. split; [by right | by intros [|[_ ?]]].
  - split; [by left | done].
  - split; [done|]. intros [|[E' _]]; [done|].
    by rewrite E', value_compare_refl in E.
Qed.

Lemma doc_compare_lt_trans f a b c :
  doc_compare f a b = Lt -> doc_compare f b c = Lt -> doc_compare f a c = Lt.
Proof.
  rewrite !doc_compare_lt.
  intros [H1 | [E1 K1]] [H2 | [E2 K2]].
  - left. by apply value_compare_lt_trans with (field_of f b.2).
  - left. by rewrite <- E2.
  - left. by rewrite E1.
  - right. split; [congruence|]. by apply string_compare_lt_trans with b.1.
Qed.

Lemma doc_compare_eq f a b c :
  doc_compare f a b = Eq -> doc_compare f a c = doc_compare f b c.
Proof.
  unfold doc_compare.
  destruct (value_compare (field_of f a.2) (field_of f b.2)) eqn:E;
    try discriminate.
  apply value_compare_eq in E.
  intros K%String.compare_eq_iff. by rewrite E, K.
Qed.

Lemma doc_compare_le_trans f a b c :
  doc_compare f a b <> Gt -> doc_compare f b c <> Gt ->
  doc_compare f a c <> Gt.
Proof.
  intros H1 H2.
  destruct (doc_compare f a b) eqn:E1; [| |done].
  - by rewrite (doc_compare_eq f a b c E1).
  - destruct (doc_compare f b c) eqn:E2; [| |done].
    + assert (doc_compare f c b = Eq) as E3
        by (by rewrite doc_compare_antisym, E2).
      pose proof (doc_compare_eq f c b a E3) as E4.
      rewrite (doc_compare_antisym f a b), E1 in E4. simpl in E4.
      by rewrite (doc_compare_antisym f c a), E4.
    + by rewrite (doc_compare_lt_trans f a b c E1 E2).
Qed.

Global Instance precedes_trans f d : Transitive (precedes f d).
Proof.
  intros a b c. destruct d; simpl.
  - apply doc_compare_le_trans.
  - intros H1 H2. by apply doc_compare_le_trans with b.
Qed.

(** The first document of an ordered query precedes every document of
    the collection in the order of the field values. *)
Lemma first_of_ordered_is_extreme f d (s : store) x l :
  ordered f d s = x :: l ->
  s !! x.1 = Some x.2
  /\ forall k p, s !! k = Some p -> field_ordered f d x (k, p).
Proof.
  intros E.
  pose proof (ordered_Permutation f d s) as Hperm. rewrite E in Hperm.
  pose proof (ordered_Sorted f d s) as Hs. rewrite E in Hs.
  apply (Sorted_StronglySorted (precedes f d)) in Hs.
  apply StronglySorted_cons in Hs as [Hall _].
  split.
  - apply elem_of_map_to_list. rewrite <- Hperm. destruct x. left.
  - intros k p Hk. apply elem_of_map_to_list in Hk.
    rewrite <- Hperm in Hk. apply elem_of_cons in Hk as [<- | Hin].
    + unfold field_ordered. destruct d; by rewrite value_compare_refl.
    + apply precedes_field_ordered.
      rewrite Forall_forall in Hall. by apply Hall.
Qed.

(** X6.  On a collection that is not empty, the expensivest and cheapest
    routes of both Express applications answer 200 with a document of the
    collection, and no document of the collection has a price above that
    of the expensivest or below that of the cheapest in the order of the
    store; for prices that are numbers this is the order of the
    numbers. *)
Theorem extremes_are_extreme (s : store) :
  s <> ∅ ->
  exists hi lo : doc,
    s !! hi.1 = Some hi.2 /\ s !! lo.1 = Some lo.2
    /\ ServerJs.handle ServerJs.GetExpensivest s
       = (Sent (Response 200 (doc_json hi)), s)
    /\ Paginated.handle Paginated.GetExpensivest s
       = (Sent (Response 200 (doc_json hi)), s)
    /\ ServerJs.handle ServerJs.GetCheapest s
       = (Sent (Response 200 (doc_json lo)), s)
    /\ Paginated.handle Paginated.GetCheapest s
       = (Sent (Response 200 (doc_json lo)), s)
    /\ (forall k p, s !! k = Some p ->
          value_compare (p_price p) (p_price hi.2) <> Gt
          /\ value_compare (p_price lo.2) (p_price p) <> Gt)
    /\ (forall k p x, s !! k = Some p -> p_price p = PNum x ->
          (forall y, p_price hi.2 = PNum y -> (x <= y)%Z)
          /\ (forall y, p_price lo.2 = PNum y -> (y <= x)%Z)).
Proof.
  intros Hne.
  destruct (ordered Price Desc s) as [|hi l1] eqn:Ehi;
    [by apply ordered_nil in Ehi|].
  destruct (ordered Price Asc s) as [|lo l2] eqn:Elo;
    [by apply ordered_nil in Elo|].
  destruct (first_of_ordered_is_extreme Price Desc s hi l1 Ehi)
    as [Hhi Hmax].
  destruct (first_of_ordered_is_extreme Price Asc s lo l2 Elo)
    as [Hlo Hmin].
  assert (forall k p, s !! k = Some p ->
            value_compare (p_price p) (p_price hi.2) <> Gt
            /\ value_compare (p_price lo.2) (p_price p) <> Gt) as Hboth
    by (intros k p Hk; split; [apply (Hmax k p Hk) | apply (Hmin k p Hk)]).
  exists hi, lo. split; [done|]. split; [done|].
  unfold ServerJs.handle, Paginated.handle.
  cbn [ServerJs.handler Paginated.handler].
  unfold getExpensivest, getCheapest. run_handler.
  rewrite !get_limit_1, Ehi, Elo. cbn [take].
  repeat (split; [reflexivity|]). split; [exact Hboth|].
  intros k p x Hk Hx. destruct (Hboth k p Hk) as [H1 H2].
  rewrite Hx in H1, H2. split; intros y Hy.
  - rewrite Hy in H1. simpl in H1. by apply Z.compare_le_iff.
  - rewrite Hy in H2. simpl in H2. by apply Z.compare_le_iff.
Qed.

(** The theorem at the four-product store. *)
Lemma extremes_are_extreme_witness :
  exists hi lo : doc,
    fst (Paginated.handle Paginated.GetExpensivest db4)
    = Sent (Response 200 (doc_json hi))
    /\ fst (Paginated.handle Paginated.GetCheapest db4)
       = Sent (Response 200 (doc_json lo))
    /\ forall k p, db4 !! k = Some p ->
         value_compare (p_price p) (p_price hi.2) <> Gt
         /\ value_compare (p_price lo.2) (p_price p) <> Gt.
Proof.
  destruct (extremes_are_extreme db4)
    as (hi & lo & _ & _ & _ & H1 & _ & H2 & H3 & _).
  - intros E. assert (size db4 = 0) as H by (by rewrite E).
    vm_compute in H. discriminate H.
  - exists hi, lo. rewrite H1, H2.
    split; [reflexivity|]. split; [reflexivity | exact H3].
Defined.
End store_extremes.

(** ** The paginated application: pages and parameters *)

Section pages.
Import JS Http Db Samples Spec.

(** The list handler on parameters that parse to a page and a size of at
    least 1. *)
Lemma paginated_list_run (q : query_params) (s : store) :
  let pageIndex := or_default (parseInt (qp_pageIndex q)) 1 in
  let pageSize := or_default (parseInt (qp_pageSize q)) 10 in
  let sortField :=
    if decide (qp_sortField q = PStr "price") then Price else Name in
  let sortDirection :=
    if decide (qp_sort q = PStr "desc") then Desc else Asc in
  (1 <= pageIndex)%Z -> (1 <= pageSize)%Z ->
  Paginated.handle (Paginated.GetProducts q) s
  = (Sent (Response 200
             (Paginated.page_body (Z.of_nat (size s)) pageIndex pageSize
                (map doc_json
                   (take (Z.to_nat pageSize)
                      (drop (Z.to_nat ((pageIndex - 1) * pageSize))
                         (ordered sortField sortDirection s)))))), s).
Proof.
  intros pageIndex pageSize sortField sortDirection Hi Hs.
  unfold Paginated.handle, Paginated.handler, Paginated.getProducts.
  fold pageIndex pageSize sortField sortDirection.
  run_handler. rewrite collection_get_run.
  rewrite (get_page _ _ _ _ s) by nia.
  by rewrite all_docs_length.
Qed.

Lemma ordered_keys_NoDup f d (s : store) : NoDup (ordered f d s).*1.
Proof. rewrite ordered_Permutation. apply NoDup_fst_map_to_list. Qed.

(** X7.  Two requests to the paginated list that differ only in asking
    for page [p] and page [p + 1] get adjacent parts of the ordered
    collection: the two pages together are the [2 * pageSize] documents
    that follow the first [(p - 1) * pageSize], no document is on both
    pages, and when the first page is not full the second is empty. *)
Theorem consecutive_pages (q1 q2 : query_params) (s : store) :
  let p := or_default (parseInt (qp_pageIndex q1)) 1 in
  let size_ := or_default (parseInt (qp_pageSize q1)) 10 in
  let f := if decide (qp_sortField q1 = PStr "price") then Price else Name in
  let d := if decide (qp_sort q1 = PStr "desc") then Desc else Asc in
  qp_pageSize q2 = qp_pageSize q1 -> qp_sortField q2 = qp_sortField q1 ->
  qp_sort q2 = qp_sort q1 ->
  or_default (parseInt (qp_pageIndex q2)) 1 = (p + 1)%Z ->
  (1 <= p)%Z -> (1 <= size_)%Z ->
  exists page1 page2 : list doc,
    Paginated.handle (Paginated.GetProducts q1) s
    = (Sent (Response 200
               (Paginated.page_body (Z.of_nat (size s)) p size_
                  (map doc_json page1))), s)
    /\ Paginated.handle (Paginated.GetProducts q2) s
       = (Sent (Response 200
                  (Paginated.page_body (Z.of_nat (size s)) (p + 1) size_
                     (map doc_json page2))), s)
    /\ (page1 ++ page2)%list
       = take (2 * Z.to_nat size_)
           (drop (Z.to_nat ((p - 1) * size_)) (ordered f d s))
    /\ NoDup (page1 ++ page2)%list.*1
    /\ (length page1 < Z.to_nat size_ -> page2 = []).
Proof.
  intros p size_ f d Hsize Hfield Hsort Hnext Hp Hs.
  pose proof (paginated_list_run q1 s Hp Hs) as H1.
  pose proof (paginated_list_run q2 s) as H2. simpl in H2.
  rewrite Hsize, Hfield, Hsort, Hnext in H2.
  fold p size_ f d in H1, H2.
  specialize (H2 ltac:(lia) Hs).
  replace (p + 1 - 1)%Z with p in H2 by lia.
  set (l := ordered f d s) in *.
  set (n := Z.to_nat size_) in *.
  set (a := Z.to_nat ((p - 1) * size_)) in *.
  assert (Z.to_nat (p * size_) = a + n) as Hoff by (unfold a, n; nia).
  rewrite Hoff in H2.
  exists (take n (drop a l)), (take n (drop (a + n) l)).
  split; [exact H1|]. split; [exact H2|].
  assert ((take n (drop a l) ++ take n (drop (a + n) l))%list
          = take (2 * n) (drop a l)) as Happ.
  { rewrite <- (drop_drop l n a), take_take_drop. f_equal. lia. }
  split; [exact Happ|]. split.
  - rewrite Happ, fmap_take, fmap_drop.
    apply (sublist_NoDup _ l.*1); [apply (ordered_keys_NoDup f d s)|].
    etransitivity; [apply sublist_take | apply sublist_drop].
  - intros Hshort. rewrite length_take, length_drop in Hshort.
    rewrite drop_ge by lia. by destruct n.
Qed.

(** The theorem at pages 1 and 2 of size 3 of the four-product store. *)
Lemma consecutive_pages_witness :
  exists page1 page2 : list doc,
    fst (Paginated.handle
           (Paginated.GetProducts
              (QueryParams (PStr "2") (PStr "3") PUndefined PUndefined)) db4)
    = Sent (Response 200 (Paginated.page_body 4 2 3 (map doc_json page2)))
    /\ (page1 ++ page2)%list = take 6 (ordered Name Asc db4).
Proof.
  destruct (consecutive_pages
              (QueryParams (PStr "1") (PStr "3") PUndefined PUndefined)
              (QueryParams (PStr "2") (PStr "3") PUndefined PUndefined) db4)
    as (page1 & page2 & _ & H2 & Happ & _);
    [reflexivity | reflexivity | reflexivity | reflexivity
    | vm_compute; discriminate | vm_compute; discriminate |].
  exists page1, page2. rewrite H2. split; [reflexivity | exact Happ].
Defined.

(** The paginated list depends on its query only through the page and
    the size after their fallbacks, and on whether the sort field is
    "price" and the direction "desc". *)
Lemma list_depends_on (q q' : query_params) (s : store) :
  or_default (parseInt (qp_pageIndex q)) 1
  = or_default (parseInt (qp_pageIndex q')) 1 ->
  or_default (parseInt (qp_pageSize q)) 10
  = or_default (parseInt (qp_pageSize q')) 10 ->
  (qp_sortField q = PStr "price" <-> qp_sortField q' = PStr "price") ->
  (qp_sort q = PStr "desc" <-> qp_sort q' = PStr "desc") ->
  Paginated.handle (Paginated.GetProducts q) s
  = Paginated.handle (Paginated.GetProducts q') s.
Proof.
  intros Hi Hs Hf Hd.
  unfold Paginated.handle, Paginated.handler, Paginated.getProducts.
  rewrite Hi, Hs.
  destruct (decide (qp_sortField q = PStr "price")) as [Ef|Ef],
    (decide (qp_sortField q' = PStr "price")) as [Ef'|Ef']; try tauto;
  destruct (decide (qp_sort q = PStr "desc")) as [Ed|Ed],
    (decide (qp_sort q' = PStr "desc")) as [Ed'|Ed']; try tauto;
  reflexivity.
Qed.

(** X8.  Each parameter of the paginated list falls back on its own,
    whatever the other three are: a page that is absent, does not start
    with a number, or is 0 is answered as page 1, such a size as size
    10, any sort field but "price" as "name", and any direction but
    "desc" as "asc".  When all four fall back the answer is 200 with the
    first ten documents by name. *)
Theorem list_fallbacks (q : query_params) (s : store) :
  let answer q := Paginated.handle (Paginated.GetProducts q) s in
  (parseInt (qp_pageIndex q) = None \/ parseInt (qp_pageIndex q) = Some 0%Z ->
   answer q
   = answer (QueryParams (PStr "1") (qp_pageSize q) (qp_sortField q)
             (qp_sort q)))
  /\ (parseInt (qp_pageSize q) = None
      \/ parseInt (qp_pageSize q) = Some 0%Z ->
      answer q
      = answer (QueryParams (qp_pageIndex q) (PStr "10") (qp_sortField q)
                (qp_sort q)))
  /\ (qp_sortField q <> PStr "price" ->
      answer q
      = answer (QueryParams (qp_pageIndex q) (qp_pageSize q) (PStr "name")
                (qp_sort q)))
  /\ (qp_sort q <> PStr "desc" ->
      answer q
      = answer (QueryParams (qp_pageIndex q) (qp_pageSize q) (qp_sortField q)
                (PStr "asc")))
  /\ (parseInt (qp_pageIndex q) = None
      \/ parseInt (qp_pageIndex q) = Some 0%Z ->
      parseInt (qp_pageSize q) = None
      \/ parseInt (qp_pageSize q) = Some 0%Z ->
      qp_sortField q <> PStr "price" -> qp_sort q <> PStr "desc" ->
      answer q
      = (Sent (Response 200
                 (Paginated.page_body (Z.of_nat (size s)) 1 10
                    (map doc_json (take 10 (ordered Name Asc s))))), s)).
Proof.
  intros answer.
  assert (forall v, parseInt v = None \/ parseInt v = Some 0%Z ->
                    forall d, or_default (parseInt v) d = d) as Hdef
    by (by intros v [-> | ->] d).
  split; [|split; [|split; [|split]]].
  - intros Hi. apply list_depends_on; cbn [qp_pageIndex qp_pageSize
      qp_sortField qp_sort]; try done.
    by rewrite (Hdef _ Hi).
  - intros Hs. apply list_depends_on; cbn [qp_pageIndex qp_pageSize
      qp_sortField qp_sort]; try done.
    by rewrite (Hdef _ Hs).
  - intros Hf. apply list_depends_on; cbn [qp_pageIndex qp_pageSize
      qp_sortField qp_sort]; done.
  - intros Hd. apply list_depends_on; cbn [qp_pageIndex qp_pageSize
      qp_sortField qp_sort]; done.
  - intros Hi Hs Hf Hd.
    pose proof (paginated_list_run q s) as H. simpl in H.
    rewrite (Hdef _ Hi), (Hdef _ Hs) in H.
    rewrite (decide_False (P := qp_sortField q = PStr "price")) in H by done.
    rewrite (decide_False (P := qp_sort q = PStr "desc")) in H by done.
    apply H; lia.
Qed.

(** The theorem at a request whose page is 0 and whose direction is not
    in lower case, and at one with parameters that are all unusable. *)
Lemma list_fallbacks_witness :
  Paginated.handle
    (Paginated.GetProducts
       (QueryParams (PStr "0") (PStr "2") (PStr "price") (PStr "DESC"))) db4
  = Paginated.handle
      (Paginated.GetProducts
         (QueryParams (PStr "1") (PStr "2") (PStr "price") (PStr "asc"))) db4
  /\ fst (Paginated.handle
            (Paginated.GetProducts
               (QueryParams (PStr "0") (PStr "many") (PStr "Price")
                  (PStr "DESC"))) db4)
     = Sent (Response 200
               (Paginated.page_body 4 1 10
                  (map doc_json (take 10 (ordered Name Asc db4))))).
Proof.
  split.
  - destruct (list_fallbacks
                (QueryParams (PStr "0") (PStr "2") (PStr "price")
                   (PStr "DESC")) db4) as (Hi & _ & _ & _ & _).
    rewrite Hi by (right; reflexivity).
    destruct (list_fallbacks
                (QueryParams (PStr "1") (PStr "2") (PStr "price")
                   (PStr "DESC")) db4) as (_ & _ & _ & Hd & _).
    apply Hd. discriminate.
  - destruct (list_fallbacks
                (QueryParams (PStr "0") (PStr "many") (PStr "Price")
                   (PStr "DESC")) db4) as (_ & _ & _ & _ & Hall).
    rewrite Hall;
      [reflexivity | right; reflexivity | left; reflexivity
      | discriminate | discriminate].
Defined.
End pages.

(** ** The in-memory application: reading one product *)

Section in_memory_get.
Import JS Http Db Samples Spec.

Lemma strip_prefix_spec p s r :
  InMemory.strip_prefix p s = Some r -> s = p +:+ r.
Proof.
  revert s. induction p as [|a p IH]; intros [|c s]; simpl; try done.
  - by intros [= <-].
  - by intros [= <-].
  - destruct (Ascii.eqb_spec a c) as [->|]; [|done].
    intros H. by rewrite (IH s H).
Qed.

Lemma digit_not_slash c d :
  digit_value 10 c = Some d -> Ascii.eqb c "/" = false.
Proof.
  intros H. destruct (Ascii.eqb_spec c "/") as [->|]; [|done].
  vm_compute in H. discriminate H.
Qed.

Lemma split_digits s :
  all_digits 10 s = true -> InMemory.split "/" s = [s].
Proof.
  induction s as [|c s IH]; simpl; [done|].
  destruct (digit_value 10 c) as [d|] eqn:Hd; [|discriminate].
  intros Hs. by rewrite (digit_not_slash c d Hd), (IH Hs).
Qed.

Lemma split_products_prefix d :
  InMemory.split "/" d = [d] ->
  InMemory.split "/" ("/products/" +:+ d) = [""; "products"; d].
Proof.
  intros H. change ("/products/" +:+ d) with
    (String "/" (String "p" (String "r" (String "o" (String "d"
      (String "u" (String "c" (String "t" (String "s" (String "/" d)))))))))).
  cbn [InMemory.split Ascii.eqb Bool.eqb]. by rewrite H.
Qed.

Lemma split_product_url url digits :
  InMemory.match_product_url url = Some digits ->
  InMemory.split "/" url !! 2 = Some digits.
Proof.
  unfold InMemory.match_product_url.
  destruct (InMemory.strip_prefix _ url) as [[|c rest]|] eqn:Hp;
    try discriminate.
  destruct (all_digits 10 (String c rest)) eqn:Hall; [|discriminate].
  intros [= <-]. apply strip_prefix_spec in Hp. subst url.
  by rewrite (split_products_prefix _ (split_digits _ Hall)).
Qed.

Lemma listener_get_id url digits b :
  InMemory.match_product_url url = Some digits ->
  InMemory.listener (InMemory.Request "GET" url b)
  = InMemory.getProductByIdHandler (InMemory.Request "GET" url b).
Proof.
  intros H. unfold InMemory.listener. cbn [InMemory.url InMemory.method].
  rewrite H, (product_url_not_collection url digits H).
  change (String.eqb "GET" "GET") with true. cbn [andb].
  rewrite bool_decide_eq_true_2 by eauto. reflexivity.
Qed.

Lemma find_none {A} (f : A -> bool) (l : list A) :
  Forall (fun x => f x = false) l -> find f l = None.
Proof. induction 1 as [|x l Hx _ IH]; simpl; [done|]. by rewrite Hx. Qed.

Lemma find_first {A} (f : A -> bool) (l1 l2 : list A) x :
  Forall (fun y => f y = false) l1 -> f x = true ->
  find f (l1 ++ x :: l2) = Some x.
Proof.
  induction 1 as [|y l Hy _ IH]; intros Hx; simpl; [by rewrite Hx|].
  rewrite Hy. by apply IH.
Qed.

Lemma in_memory_get_run url digits b (ps : InMemory.products) :
  InMemory.match_product_url url = Some digits ->
  InMemory.handle (InMemory.Request "GET" url b) ps
  = (Sent (match find (fun u => strict_eq_num (p_id u)
                                  (parseInt (PStr digits))) ps with
           | Some u => Response 200 (product_json u)
           | None => Response 404 (message_body "Product not found")
           end), ps).
Proof.
  intros H. unfold InMemory.handle. rewrite (listener_get_id url digits b H).
  unfold InMemory.getProductByIdHandler. cbn [InMemory.url].
  rewrite (split_product_url url digits H). run_handler. simpl.
  by destruct (find _ ps).
Qed.

(** X10.  GET /products/:id of the in-memory application compares the
    number in the URL with the [id] of each product by [===]: when that
    number is a safe integer, it answers 200 with the first product that
    has it as id, and 404 with [{message: "Product not found"}] when
    none has; a product whose id is the same digits as a string is not
    found, whatever the number.  The array is unchanged. *)
Theorem in_memory_get_by_id (url digits : string) (b : parsed)
    (ps : InMemory.products) :
  InMemory.match_product_url url = Some digits ->
  exists n, parseInt (PStr digits) = Some n
    /\ (isSafeInteger n ->
        (Forall (fun u => p_id u <> PNum n) ps ->
         InMemory.handle (InMemory.Request "GET" url b) ps
         = (Sent (Response 404 (message_body "Product not found")), ps))
        /\ (forall l1 u l2,
              ps = (l1 ++ u :: l2)%list ->
              Forall (fun v => p_id v <> PNum n) l1 -> p_id u = PNum n ->
              InMemory.handle (InMemory.Request "GET" url b) ps
              = (Sent (Response 200 (product_json u)), ps)))
    /\ (forall name price,
          InMemory.handle (InMemory.Request "GET" url b)
            [Product (PStr digits) name price]
          = (Sent (Response 404 (message_body "Product not found")),
             [Product (PStr digits) name price])).
Proof.
  intros Hurl. destruct (product_url_parses url digits Hurl) as (n & Hn & _).
  exists n. split; [done|]. split; [intros _; split|].
  - intros Hnone. rewrite (in_memory_get_run url digits b ps Hurl), Hn.
    by rewrite find_none by by apply no_match_bool.
  - intros l1 u l2 -> Hl1 Hu.
    rewrite (in_memory_get_run url digits b _ Hurl), Hn.
    rewrite (find_first _ l1 l2 u);
      [done | by apply no_match_bool | by apply strict_eq_num_spec].
  - intros name price.
    by rewrite (in_memory_get_run url digits b _ Hurl), Hn.
Qed.

(** The theorem at GET /products/3 on three products. *)
Lemma in_memory_get_by_id_witness :
  InMemory.handle (InMemory.Request "GET" "/products/3" ParsedArray)
    [apple; orange; lime]
  = (Sent (Response 200 (product_json lime)), [apple; orange; lime]).
Proof.
  destruct (in_memory_get_by_id "/products/3" "3" ParsedArray
              [apple; orange; lime])
    as (n & Hn & Hsafe & _); [reflexivity|].
  vm_compute in Hn. injection Hn as <-.
  destruct Hsafe as [_ Hfound];
    [unfold isSafeInteger, MAX_SAFE_INTEGER; lia |].
  apply (Hfound [apple; orange] lime []); [reflexivity | | reflexivity].
  repeat constructor; discriminate.
Defined.
End in_memory_get.

(** ** The in-memory application: how the requests compose *)

Section in_memory_compose.
Import JS Http Db Samples Spec.

(** X11.  In the in-memory application, after an accepted POST of a
    product with a numeric id the product is the last of the array.  When
    no older product has that id, a GET of the id answers with the new
    product and a DELETE of the id restores the array as it was before
    the POST.  When an older product has that id, the GET still answers
    with the older one and the DELETE removes the older one, so the new
    product is what remains. *)
Theorem in_memory_post_then (p : product) (name url digits : string)
    (n : Z) (b : parsed) (ps : InMemory.products) :
  p_name p = PStr name -> trim name <> "" -> p_id p = PNum n ->
  InMemory.match_product_url url = Some digits ->
  parseInt (PStr digits) = Some n ->
  let ps' :=
    snd (InMemory.handle
           (InMemory.Request "POST" "/products" (ParsedObject p)) ps) in
  ps' = (ps ++ [p])%list
  /\ (Forall (fun u => p_id u <> PNum n) ps ->
      InMemory.handle (InMemory.Request "GET" url b) ps'
      = (Sent (Response 200 (product_json p)), ps')
      /\ snd (InMemory.handle (InMemory.Request "DELETE" url b) ps') = ps)
  /\ (forall l1 u l2,
        ps = (l1 ++ u :: l2)%list ->
        Forall (fun v => p_id v <> PNum n) l1 -> p_id u = PNum n ->
        InMemory.handle (InMemory.Request "GET" url b) ps'
        = (Sent (Response 200 (product_json u)), ps')
        /\ snd (InMemory.handle (InMemory.Request "DELETE" url b) ps')
           = (l1 ++ l2 ++ [p])%list).
Proof.
  intros Hname Hblank Hid Hurl Hn ps'.
  assert (ps' = (ps ++ [p])%list) as ->
    by (unfold ps'; by rewrite (create_appends p name ps Hname Hblank)).
  split; [done|]. split.
  - intros Hnone. split.
    + rewrite (in_memory_get_run url digits b _ Hurl), Hn.
      rewrite (find_first _ ps [] p);
        [done | by apply no_match_bool | by apply strict_eq_num_spec].
    + rewrite (in_memory_delete_run url digits b _ Hurl), Hn.
      rewrite (findIndex_first _ ps [] p);
        [| by apply no_match_bool | by apply strict_eq_num_spec].
      cbn [snd]. rewrite splice1_middle. apply app_nil_r.
  - intros l1 u l2 -> Hl1 Hu. rewrite <- !(assoc_L (++)). cbn [app].
    split.
    + rewrite (in_memory_get_run url digits b _ Hurl), Hn.
      rewrite (find_first _ l1 (l2 ++ [p]) u);
        [done | by apply no_match_bool | by apply strict_eq_num_spec].
    + rewrite (in_memory_delete_run url digits b _ Hurl), Hn.
      rewrite (findIndex_first _ l1 (l2 ++ [p]) u);
        [| by apply no_match_bool | by apply strict_eq_num_spec].
      cbn [snd]. by rewrite splice1_middle.
Qed.

(** The theorem at a POST of the lime after the apple and the orange. *)
Lemma in_memory_post_then_witness :
  snd (InMemory.handle (InMemory.Request "DELETE" "/products/3" ParsedArray)
         (snd (InMemory.handle
                 (InMemory.Request "POST" "/products" (ParsedObject lime))
                 [apple; orange])))
  = [apple; orange].
Proof.
  destruct (in_memory_post_then lime "Lime" "/products/3" "3" 3 ParsedArray
              [apple; orange])
    as (_ & H & _); [reflexivity | discriminate | reflexivity | reflexivity
                     | reflexivity |].
  apply H. repeat constructor; discriminate.
Defined.

(** What one request does to the array. *)
Lemma create_step req (ps : InMemory.products) :
  snd (run_opt (InMemory.createProductHandler req) ps) = ps
  \/ exists p, named p
       /\ snd (run_opt (InMemory.createProductHandler req) ps)
          = (ps ++ [p])%list.
Proof.
  unfold InMemory.createProductHandler. run_handler.
  destruct (truthy_parsed (InMemory.payload req)); simpl; [|by left].
  destruct (fields (InMemory.payload req)) as [p|]; simpl; [|by left].
  destruct (p_name p) as [| | | |name] eqn:Hname; simpl; try by left.
  destruct (String.eqb_spec (trim name) ""); simpl; [by left|].
  right. exists p. split; [by exists name | done].
Qed.

Lemma delete_step req (ps : InMemory.products) :
  snd (run_opt (InMemory.deleteProductByIdHandler req) ps) = ps
  \/ exists i, i < length ps
       /\ snd (run_opt (InMemory.deleteProductByIdHandler req) ps)
          = InMemory.splice1 i ps.
Proof.
  unfold InMemory.deleteProductByIdHandler. run_handler.
  destruct (InMemory.match_product_url _); simpl; [|by left].
  destruct (String.eqb _ "DELETE"); simpl; [|by left].
  destruct (InMemory.findIndex _ ps) as [i|] eqn:Hi; simpl; [|by left].
  right. exists i. split; [|done].
  clear -Hi. revert i Hi. induction ps as [|x ps IH]; intros i; simpl;
    [done|].
  destruct (strict_eq_num _ _); [intros [= <-]; lia|].
  destruct (InMemory.findIndex _ ps) as [j|]; [|done].
  intros [= <-]. specialize (IH j eq_refl). lia.
Qed.

Lemma in_memory_step req (ps : InMemory.products) :
  let ps' := snd (InMemory.handle req ps) in
  ps' = ps
  \/ (exists p, named p /\ ps' = (ps ++ [p])%list)
  \/ (exists i, i < length ps /\ ps' = InMemory.splice1 i ps)
  \/ ps' = [].
Proof.
  unfold InMemory.handle, InMemory.listener.
  repeat match goal with
         | |- context [if ?c then _ else _] => destruct c
         end.
  - left. apply in_memory_list_keeps.
  - left. apply in_memory_by_id_keeps.
  - destruct (create_step req ps) as [H | H]; [by left | right; by left].
  - by left.
  - left. apply in_memory_expensivest_keeps.
  - left. apply in_memory_cheapest_keeps.
  - left. apply in_memory_median_keeps.
  - right. right. by right.
  - destruct (delete_step req ps) as [H | H];
      [by left | right; right; by left].
  - by left.
Qed.

(** X12.  If every product of the in-memory array has a name that is a
    string and not blank, the same holds after any request: the only
    handler that adds a product checks the name, and the others only
    remove products.  The length changes by at most one unless the array
    is cleared. *)
Theorem names_stay (req : InMemory.request) (ps : InMemory.products) :
  Forall named ps ->
  let ps' := snd (InMemory.handle req ps) in
  Forall named ps'
  /\ (ps' = [] \/ length ps' = length ps \/ length ps' = S (length ps)
      \/ S (length ps') = length ps).
Proof.
  intros Hps ps'.
  destruct (in_memory_step req ps)
    as [H | [(p & Hp & H) | [(i & Hi & H) | H]]]; fold ps' in H; rewrite H.
  - split; [done | auto].
  - split; [apply Forall_app; by repeat constructor|].
    rewrite length_app. simpl. right. right. left. lia.
  - unfold InMemory.splice1. split.
    + apply Forall_app. split; [by apply Forall_take | by apply Forall_drop].
    + rewrite length_app, length_take, length_drop. lia.
  - split; [constructor | by left].
Qed.

(** The theorem at a POST of the lime after the apple and the orange. *)
Lemma names_stay_witness :
  Forall named
    (snd (InMemory.handle
            (InMemory.Request "POST" "/products" (ParsedObject lime))
            [apple; orange])).
Proof.
  assert (Forall named [apple; orange]) as H.
  { repeat constructor; eexists; (split; [reflexivity | discriminate]). }
  apply (names_stay _ _ H).
Defined.
End in_memory_compose.

(** ** The in-memory application: list, count and extremes *)

Section in_memory_views.
Import JS Http Db Samples Spec.

(** X13.  In the in-memory application the list route answers with the
    products in the order they were added and the count route with their
    number; after an accepted POST the list is the old list followed by
    the new product and the count is one more. *)
Theorem in_memory_list_and_count (p : product) (name : string) (b : parsed)
    (ps : InMemory.products) :
  p_name p = PStr name -> trim name <> "" ->
  let list_ := InMemory.Request "GET" "/products" b in
  let count := InMemory.Request "GET" "/products/count" b in
  let ps' :=
    snd (InMemory.handle
           (InMemory.Request "POST" "/products" (ParsedObject p)) ps) in
  InMemory.handle list_ ps
  = (Sent (Response 200 (JArr (map product_json ps))), ps)
  /\ InMemory.handle count ps
     = (Sent (Response 200 (count_body (length ps))), ps)
  /\ InMemory.handle list_ ps'
     = (Sent (Response 200
                (JArr (map product_json ps ++ [product_json p])%list)), ps')
  /\ InMemory.handle count ps'
     = (Sent (Response 200 (count_body (S (length ps)))), ps').
Proof.
  intros Hname Hblank list_ count ps'.
  assert (ps' = (ps ++ [p])%list) as ->
    by (unfold ps'; by rewrite (create_appends p name ps Hname Hblank)).
  assert (forall l, InMemory.handle list_ l
                    = (Sent (Response 200 (JArr (map product_json l))), l))
    as Hlist by reflexivity.
  assert (forall l, InMemory.handle count l
                    = (Sent (Response 200 (count_body (length l))), l))
    as Hcount by reflexivity.
  rewrite !Hlist, !Hcount, map_app, length_app. cbn [map length].
  by replace (length ps + 1) with (S (length ps)) by lia.
Qed.

(** The theorem at a POST of the lime after the apple and the orange. *)
Lemma in_memory_list_and_count_witness :
  fst (InMemory.handle (InMemory.Request "GET" "/products/count" ParsedArray)
         (snd (InMemory.handle
                 (InMemory.Request "POST" "/products" (ParsedObject lime))
                 [apple; orange])))
  = Sent (Response 200 (count_body 3)).
Proof.
  destruct (in_memory_list_and_count lime "Lime" ParsedArray [apple; orange])
    as (_ & _ & _ & H); [reflexivity | discriminate |].
  by rewrite H.
Defined.

(** A left fold that replaces its accumulator only by a strictly larger
    element ends on the first largest element. *)
Lemma fold_first_max {A} (P : A -> Prop) (key : A -> Z) (f : A -> A -> A)
    (l pre mid : list A) (x : A) :
  (forall m q, P m -> P q -> f m q = if (key m <? key q)%Z then q else m) ->
  P x -> Forall P l ->
  Forall (fun q => (key q < key x)%Z) pre ->
  Forall (fun q => (key q <= key x)%Z) mid ->
  exists l1 l2,
    (pre ++ x :: mid ++ l)%list = (l1 ++ fold_left f l x :: l2)%list
    /\ Forall (fun q => (key q < key (fold_left f l x))%Z) l1
    /\ Forall (fun q => (key q <= key (fold_left f l x))%Z) l2.
Proof.
  intros Hf. revert pre mid x.
  induction l as [|y l IH]; intros pre mid x Hx Hl Hpre Hmid; simpl.
  - exists pre, mid. by rewrite app_nil_r.
  - inversion Hl as [|? ? Hy Hl']; subst. rewrite (Hf x y Hx Hy).
    destruct (Z.ltb_spec (key x) (key y)) as [Hlt|Hge].
    + destruct (IH (pre ++ x :: mid)%list [] y Hy Hl') as (l1 & l2 & E & H1 & H2).
      * apply Forall_app. split; [|constructor].
        -- eapply Forall_impl; [exact Hpre|]. simpl. lia.
        -- done.
        -- eapply Forall_impl; [exact Hmid|]. simpl. lia.
      * constructor.
      * exists l1, l2. split; [|done]. rewrite <- E.
        by rewrite <- !(assoc_L (++)).
    + destruct (IH pre (mid ++ [y])%list x Hx Hl' Hpre) as (l1 & l2 & E & H1 & H2).
      * apply Forall_app. split; [done|]. by repeat constructor.
      * exists l1, l2. split; [|done]. rewrite <- E.
        by rewrite <- !(assoc_L (++)).
Qed.

Lemma has_number_price_eq p :
  has_number_price p -> p_price p = PNum (price_number p).
Proof. intros [x Hx]. unfold price_number. by rewrite Hx. Qed.

(** X14.  On an in-memory array whose prices are all numbers, the
    expensivest route answers with the first product of the largest price
    and the cheapest route with the first product of the smallest price:
    every product before it in the array is strictly cheaper (dearer),
    and no product after it is dearer (cheaper). *)
Theorem in_memory_extremes_numeric (ps : InMemory.products) (b : parsed) :
  Forall has_number_price ps -> ps <> [] ->
  exists hi lo l1 l2 m1 m2,
    ps = (l1 ++ hi :: l2)%list /\ ps = (m1 ++ lo :: m2)%list
    /\ InMemory.handle (InMemory.Request "GET" "/products/expensivest" b) ps
       = (Sent (Response 200 (product_json hi)), ps)
    /\ InMemory.handle (InMemory.Request "GET" "/products/cheapest" b) ps
       = (Sent (Response 200 (product_json lo)), ps)
    /\ Forall (fun q => (price_number q < price_number hi)%Z) l1
    /\ Forall (fun q => (price_number q <= price_number hi)%Z) l2
    /\ Forall (fun q => (price_number lo < price_number q)%Z) m1
    /\ Forall (fun q => (price_number lo <= price_number q)%Z) m2.
Proof.
  intros Hnum Hne. destruct ps as [|x l]; [done|].
  inversion Hnum as [|? ? Hx Hl]; subst.
  destruct (fold_first_max has_number_price price_number
              (fun maxProduct product =>
                 if gt (p_price product) (p_price maxProduct)
                 then product else maxProduct) l [] [] x)
    as (l1 & l2 & E1 & H1 & H2); [|done|done|constructor|constructor|].
  { intros m q Hm Hq.
    by rewrite (has_number_price_eq m Hm), (has_number_price_eq q Hq). }
  destruct (fold_first_max has_number_price
              (fun q => (- price_number q)%Z)
              (fun minProduct product =>
                 if lt (p_price product) (p_price minProduct)
                 then product else minProduct) l [] [] x)
    as (m1 & m2 & E2 & H3 & H4); [|done|done|constructor|constructor|].
  { intros m q Hm Hq.
    rewrite (has_number_price_eq m Hm), (has_number_price_eq q Hq). simpl.
    destruct (Z.ltb_spec (price_number q) (price_number m)),
      (Z.ltb_spec (- price_number m) (- price_number q)); try done; lia. }
  simpl in E1, E2. eexists _, _, l1, l2, m1, m2.
  split; [exact E1|]. split; [exact E2|].
  split; [reflexivity|]. split; [reflexivity|].
  split; [exact H1|]. split; [exact H2|].
  split.
  - eapply Forall_impl; [exact H3|]. simpl. lia.
  - eapply Forall_impl; [exact H4|]. simpl. lia.
Qed.

(** The theorem at the four sample products. *)
Lemma in_memory_extremes_numeric_witness :
  exists hi lo,
    fst (InMemory.handle
           (InMemory.Request "GET" "/products/expensivest" ParsedArray)
           [apple; orange; lime; berry])
    = Sent (Response 200 (product_json hi))
    /\ fst (InMemory.handle
              (InMemory.Request "GET" "/products/cheapest" ParsedArray)
              [apple; orange; lime; berry])
       = Sent (Response 200 (product_json lo))
    /\ (price_number lo <= price_number hi)%Z.
Proof.
  destruct (in_memory_extremes_numeric [apple; orange; lime; berry]
              ParsedArray)
    as (hi & lo & l1 & l2 & m1 & m2 & E1 & E2 & Hhi & Hlo & H1 & H2 & _).
  - repeat constructor; eexists; reflexivity.
  - discriminate.
  - exists hi, lo. rewrite Hhi, Hlo. split; [reflexivity|].
    split; [reflexivity|].
    assert (lo ∈ (l1 ++ hi :: l2)%list) as Hin
      by (rewrite <- E1, E2; apply elem_of_app; right; left).
    apply elem_of_app in Hin as [Hin | Hin].
    + rewrite Forall_forall in H1. specialize (H1 lo Hin). lia.
    + apply elem_of_cons in Hin as [-> | Hin]; [lia|].
      rewrite Forall_forall in H2. by apply H2.
Defined.
End in_memory_views.

(** ** The in-memory application: every 404 *)

Section in_memory_not_found.
Import JS Http Db Samples Spec.

(** X15.  In the in-memory application a 404 never changes the array and
    its body is one of three: [{message: "Product not found"}] from GET
    by id, [{error: "Product not found"}] from DELETE by id, or
    [{message: "Route not found"}] from the router; the
    [{error: "Not Found"}] branch of the delete handler is never reached
    through the router.  Every request whose method is not GET, POST or
    DELETE gets the 404 of the router. *)
Theorem in_memory_404 (req : InMemory.request) (ps : InMemory.products) :
  (forall r, fst (InMemory.handle req ps) = Sent r -> status r = 404 ->
     snd (InMemory.handle req ps) = ps
     /\ (body r = message_body "Product not found"
         \/ body r = error_body "Product not found"
         \/ body r = message_body "Route not found"))
  /\ fst (InMemory.handle req ps)
     <> Sent (Response 404 (error_body "Not Found"))
  /\ (InMemory.method req <> "GET" -> InMemory.method req <> "POST" ->
      InMemory.method req <> "DELETE" ->
      InMemory.handle req ps
      = (Sent (Response 404 (message_body "Route not found")), ps)).
Proof.
  assert (forall r, fst (InMemory.handle req ps) = Sent r -> status r = 404 ->
            snd (InMemory.handle req ps) = ps
            /\ (body r = message_body "Product not found"
                \/ body r = error_body "Product not found"
                \/ body r = message_body "Route not found")) as Hcat.
  { intros r. destruct req as [m u b].
    unfold InMemory.handle, InMemory.listener.
    cbn [InMemory.url InMemory.method].
    destruct (String.eqb u "/products" && String.eqb m "GET");
      [by intros [= <-]|].
    destruct (bool_decide _ && String.eqb m "GET").
    { unfold InMemory.getProductByIdHandler. run_handler.
      destruct (find _ ps); intros [= <-]; [done|]. intros _. auto. }
    destruct (String.eqb u "/products" && String.eqb m "POST").
    { unfold InMemory.createProductHandler. run_handler.
      cbn [InMemory.payload].
      destruct (truthy_parsed b); simpl; [|by intros [= <-]].
      destruct (fields b) as [p|]; simpl; [|done].
      destruct (p_name p); simpl; try done.
      destruct (String.eqb _ ""); simpl; by intros [= <-]. }
    destruct (String.eqb u "/products/count" && String.eqb m "GET");
      [by intros [= <-]|].
    destruct (String.eqb u "/products/expensivest" && String.eqb m "GET").
    { unfold InMemory.getExpensivestProduct. run_handler.
      destruct (InMemory.reduce _ ps); simpl; [by intros [= <-] | done]. }
    destruct (String.eqb u "/products/cheapest" && String.eqb m "GET").
    { unfold InMemory.getCheapestProduct. run_handler.
      destruct (InMemory.reduce _ ps); simpl; [by intros [= <-] | done]. }
    destruct (String.eqb u "/products/median" && String.eqb m "GET").
    { unfold InMemory.getMedianProduct. run_handler.
      destruct (length ps =? 0)%nat; simpl; [done|].
      destruct (negb _); by intros [= <-]. }
    destruct (String.eqb u "/products" && String.eqb m "DELETE");
      [by intros [= <-]|].
    destruct (bool_decide _ && String.eqb m "DELETE") eqn:E.
    { apply andb_true_iff in E as [[digits Hd]%bool_decide_eq_true Hm].
      cbn [InMemory.url] in Hd.
      unfold InMemory.deleteProductByIdHandler.
      cbn [InMemory.url InMemory.method]. rewrite Hd, Hm. run_handler.
      destruct (InMemory.findIndex _ ps); simpl; intros [= <-]; [done|].
      intros _. auto. }
    intros [= <-] _. auto. }
  split; [exact Hcat|]. split.
  - intros H. destruct (Hcat _ H eq_refl) as [_ [? | [? | ?]]]; done.
  - destruct req as [m u b]. cbn [InMemory.method]. intros H1 H2 H3.
    apply String.eqb_neq in H1, H2, H3.
    unfold InMemory.handle, InMemory.listener.
    cbn [InMemory.url InMemory.method].
    by rewrite H1, H2, H3, !andb_false_r.
Qed.

(** The theorem at a PUT and at a GET of a product that is not there. *)
Lemma in_memory_404_witness :
  InMemory.handle (InMemory.Request "PUT" "/products/1" ParsedArray) [apple]
  = (Sent (Response 404 (message_body "Route not found")), [apple])
  /\ snd (InMemory.handle
            (InMemory.Request "GET" "/products/9" ParsedArray) [apple])
     = [apple].
Proof.
  split.
  - destruct (in_memory_404
                (InMemory.Request "PUT" "/products/1" ParsedArray) [apple])
      as (_ & _ & H).
    apply H; discriminate.
  - destruct (in_memory_404
                (InMemory.Request "GET" "/products/9" ParsedArray) [apple])
      as (H & _).
    apply (H (Response 404 (message_body "Product not found")));
      reflexivity.
Defined.
End in_memory_not_found.

(** ** The median splits the collection *)

Section median_split.
Import JS Http Db Samples Spec.

(** In a sorted list everything before a position is below its element
    and everything after is above. *)
Lemma sorted_split {A} (R : relation A) `{!Transitive R} (l : list A) i x :
  Sorted R l -> l !! i = Some x ->
  l = (take i l ++ x :: drop (S i) l)%list
  /\ Forall (fun y => R y x) (take i l)
  /\ Forall (R x) (drop (S i) l).
Proof.
  intros Hs Hx. apply (Sorted_StronglySorted R) in Hs.
  pose proof (take_drop_middle l i x Hx) as E.
  split; [done|]. rewrite <- E in Hs.
  apply StronglySorted_app in Hs as (Hcross & _ & Hright).
  apply StronglySorted_cons in Hright as [Hright _].
  split; [|done]. apply Forall_forall. intros y Hy.
  apply Hcross; [done | left].
Qed.

Lemma odd_half n : n mod 2 = 1 -> n - S (n / 2) = n / 2.
Proof. intros H. pose proof (Nat.div_mod_eq n 2). lia. Qed.

Lemma even_half n : n mod 2 = 0 -> 0 < n -> n - S (n / 2) = n / 2 - 1.
Proof. intros H ?. pose proof (Nat.div_mod_eq n 2). lia. Qed.

(** X16.  The median answered by the Express applications is a median of
    the prices: with an odd count the collection is the answered document
    together with [n / 2] documents whose price is not above its price
    and [n / 2] whose price is not below; with an even count the two
    middle documents [x] and [y] of the paginated application (src/server.js
    answers [x] alone) stand between [n / 2 - 1] documents not above [x]
    and [n / 2 - 1] not below [y], and [x] is not above [y]. *)
Theorem median_splits (s : store) :
  let l := ordered Price Asc s in
  let n := size s in
  let le := field_ordered Price Asc in
  (n mod 2 = 1 ->
   exists below m above,
     map_to_list s ≡ₚ (below ++ m :: above)%list
     /\ length below = n / 2 /\ length above = n / 2
     /\ Forall (fun x => le x m) below /\ Forall (le m) above
     /\ fst (Paginated.handle Paginated.GetMedian s)
        = Sent (Response 200 (doc_json m))
     /\ fst (ServerJs.handle ServerJs.GetMedian s)
        = Sent (Response 200 (doc_json m)))
  /\ (n mod 2 = 0 -> 0 < n ->
      exists below x y above,
        map_to_list s ≡ₚ (below ++ x :: y :: above)%list
        /\ length below = n / 2 - 1 /\ length above = n / 2 - 1
        /\ Forall (fun z => le z x) below /\ le x y /\ Forall (le y) above
        /\ fst (Paginated.handle Paginated.GetMedian s)
           = Sent (Response 200 (JArr [doc_json x; doc_json y]))
        /\ fst (ServerJs.handle ServerJs.GetMedian s)
           = Sent (Response 200 (doc_json x))).
Proof.
  intros l n le.
  assert (length l = n) as Hlen by apply ordered_length.
  pose proof (Sorted_field_ordered Price Asc l (ordered_Sorted Price Asc s))
    as Hsorted'.
  pose proof (ordered_Sorted Price Asc s) as Hsorted. fold l in Hsorted.
  assert (forall a b, precedes Price Asc a b -> le a b) as Hle
    by apply precedes_field_ordered.
  split.
  - intros Hodd.
    assert (0 < n) as Hpos by (destruct n; [discriminate | lia]).
    destruct (lookup_lt_is_Some_2 l (n / 2)) as [m Hm];
      [rewrite Hlen; by apply half_lt|].
    destruct (sorted_split _ l _ m Hsorted Hm) as (E & Hb & Ha).
    exists (take (n / 2) l), m, (drop (S (n / 2)) l).
    split; [by rewrite <- E, <- (ordered_Permutation Price Asc s)|].
    split; [rewrite length_take; pose proof (half_lt n Hpos); lia|].
    split; [rewrite length_drop, Hlen; by apply odd_half|].
    split; [eapply Forall_impl; [exact Hb|]; intros ?; apply Hle|].
    split; [eapply Forall_impl; [exact Ha|]; intros ?; apply Hle|].
    rewrite paginated_median_run, serverjs_median_run. fold l.
    rewrite Hlen, Hodd.
    replace (n =? 0)%nat with false by (symmetry; apply Nat.eqb_neq; lia).
    rewrite Nat.eqb_refl. cbv iota. cbn [fst].
    by rewrite (at_index_map doc_json l _ m Hm).
  - intros Heven Hpos.
    pose proof (even_half_pos n Heven Hpos) as Hhalf.
    pose proof (half_lt n Hpos) as Hlt.
    destruct (lookup_lt_is_Some_2 l (n / 2 - 1)) as [x Hx]; [lia|].
    destruct (lookup_lt_is_Some_2 l (n / 2)) as [y Hy]; [lia|].
    destruct (sorted_split _ l _ x Hsorted Hx) as (E & Hb & Hxa).
    destruct (sorted_split _ l _ y Hsorted Hy) as (_ & _ & Ha).
    replace (S (n / 2 - 1)) with (n / 2) in E, Hxa by lia.
    rewrite (drop_S l y (n / 2) Hy) in E, Hxa.
    apply Forall_cons in Hxa as [Hxy _].
    exists (take (n / 2 - 1) l), x, y, (drop (S (n / 2)) l).
    split; [by rewrite <- E, <- (ordered_Permutation Price Asc s)|].
    split; [rewrite length_take; lia|].
    split; [rewrite length_drop, Hlen; by apply even_half|].
    split; [eapply Forall_impl; [exact Hb|]; intros ?; apply Hle|].
    split; [by apply Hle|].
    split; [eapply Forall_impl; [exact Ha|]; intros ?; apply Hle|].
    rewrite paginated_median_run, serverjs_median_run. fold l.
    rewrite Hlen, Heven.
    replace (n =? 0)%nat with false by (symmetry; apply Nat.eqb_neq; lia).
    change (0 =? 1)%nat with false. cbv iota. cbn [fst].
    rewrite (at_index_map doc_json l _ x Hx).
    by rewrite (at_index_map doc_json l _ y Hy).
Qed.

(** The theorem at the three-product store. *)
Lemma median_splits_witness :
  exists below m above,
    map_to_list db3 ≡ₚ (below ++ m :: above)%list
    /\ length below = 1 /\ length above = 1
    /\ fst (Paginated.handle Paginated.GetMedian db3)
       = Sent (Response 200 (doc_json m)).
Proof.
  destruct (median_splits db3) as (Hodd & _).
  destruct Hodd as (below & m & above & Hp & Hb & Ha & _ & _ & Hm & _);
    [vm_compute; reflexivity|].
  exists below, m, above. split; [exact Hp|].
  split; [exact Hb|]. split; [exact Ha | exact Hm].
Defined.
End median_split.

Section in_memory_median_split.
Import JS Http Db Samples Spec.

Global Instance id_le_trans : Transitive id_le.
Proof.
  intros a b c (x & y & Ha & Hb & Hxy) (y' & z & Hb' & Hc & Hyz).
  exists x, z. repeat split; [done | done |].
  rewrite Hb in Hb'. injection Hb' as <-. lia.
Qed.

(** X17.  On an in-memory array whose ids are all numbers, the median
    route answers with a median of the ids, whatever the prices: with an
    odd count the array is, up to order, the answered product together
    with [n / 2] products whose id is not above its id and [n / 2] whose
    id is not below; with an even count the two answered products stand
    between [n / 2 - 1] products on either side.  The array itself keeps
    its order. *)
Theorem in_memory_median_splits (ps : InMemory.products) (b : parsed) :
  Forall (fun p => exists i, p_id p = PNum i) ps ->
  let n := length ps in
  let median := InMemory.Request "GET" "/products/median" b in
  (n mod 2 = 1 ->
   exists below m above,
     ps ≡ₚ (below ++ m :: above)%list
     /\ length below = n / 2 /\ length above = n / 2
     /\ Forall (fun x => id_le x m) below /\ Forall (id_le m) above
     /\ InMemory.handle median ps
        = (Sent (Response 200 (product_json m)), ps))
  /\ (n mod 2 = 0 -> 0 < n ->
      exists below x y above,
        ps ≡ₚ (below ++ x :: y :: above)%list
        /\ length below = n / 2 - 1 /\ length above = n / 2 - 1
        /\ Forall (fun z => id_le z x) below /\ id_le x y
        /\ Forall (id_le y) above
        /\ InMemory.handle median ps
           = (Sent (Response 200 (JArr [product_json x; product_json y])),
              ps)).
Proof.
  intros Hnum n median.
  set (l := InMemory.sort (fun a b => sub (p_id a) (p_id b)) ps).
  assert (length l = n) as Hlen by apply sort_length.
  pose proof (sort_by_id_Sorted ps Hnum) as Hsorted. fold l in Hsorted.
  pose proof (sort_Permutation (fun a b => sub (p_id a) (p_id b)) ps)
    as Hperm. fold l in Hperm.
  split.
  - intros Hodd.
    assert (0 < n) as Hpos by (destruct n; [discriminate | lia]).
    destruct (lookup_lt_is_Some_2 l (n / 2)) as [m Hm];
      [rewrite Hlen; by apply half_lt|].
    destruct (sorted_split _ l _ m Hsorted Hm) as (E & Hb & Ha).
    exists (take (n / 2) l), m, (drop (S (n / 2)) l).
    split; [by rewrite <- E|].
    split; [rewrite length_take; pose proof (half_lt n Hpos); lia|].
    split; [rewrite length_drop, Hlen; by apply odd_half|].
    split; [done|]. split; [done|].
    unfold median. rewrite in_memory_median_run. fold l.
    rewrite Hlen, Hodd.
    replace (n =? 0)%nat with false by (symmetry; apply Nat.eqb_neq; lia).
    rewrite Nat.eqb_refl. cbv iota.
    unfold InMemory.at_index. by rewrite lookup_map, Hm.
  - intros Heven Hpos.
    pose proof (even_half_pos n Heven Hpos) as Hhalf.
    pose proof (half_lt n Hpos) as Hlt.
    destruct (lookup_lt_is_Some_2 l (n / 2 - 1)) as [x Hx]; [lia|].
    destruct (lookup_lt_is_Some_2 l (n / 2)) as [y Hy]; [lia|].
    destruct (sorted_split _ l _ x Hsorted Hx) as (E & Hb & Hxa).
    destruct (sorted_split _ l _ y Hsorted Hy) as (_ & _ & Ha).
    replace (S (n / 2 - 1)) with (n / 2) in E, Hxa by lia.
    rewrite (drop_S l y (n / 2) Hy) in E, Hxa.
    apply Forall_cons in Hxa as [Hxy _].
    exists (take (n / 2 - 1) l), x, y, (drop (S (n / 2)) l).
    split; [by rewrite <- E|].
    split; [rewrite length_take; lia|].
    split; [rewrite length_drop, Hlen; by apply even_half|].
    split; [done|]. split; [done|]. split; [done|].
    unfold median. rewrite in_memory_median_run. fold l.
    rewrite Hlen, Heven.
    replace (n =? 0)%nat with false by (symmetry; apply Nat.eqb_neq; lia).
    change (0 =? 1)%nat with false. cbv iota.
    unfold InMemory.at_index. by rewrite !lookup_map, Hx, Hy.
Qed.

(** The theorem at three products given out of id order. *)
Lemma in_memory_median_splits_witness :
  exists m,
    InMemory.handle (InMemory.Request "GET" "/products/median" ParsedArray)
      [lime; apple; orange]
    = (Sent (Response 200 (product_json m)), [lime; apple; orange]).
Proof.
  destruct (in_memory_median_splits [lime; apple; orange] ParsedArray)
    as (Hodd & _).
  - repeat constructor; eexists; reflexivity.
  - destruct Hodd as (below & m & above & _ & _ & _ & _ & _ & H);
      [reflexivity|].
    exists m. exact H.
Defined.
End in_memory_median_split.
